(** * lolopy.loloserver: starting and re-using the Java gateway

    A shallow embedding of [python/lolopy/loloserver.py].  The module talks to
    the operating system (environment variables, the file system, child
    processes) and keeps one module-level global, [_lolopy_gateway].  The
    embedding keeps both visible:

    - everything the module can observe of the outside is a field of
      [World]; a call runs against one fixed world (the module is fully
      synchronous);
    - the global and a log of the system calls performed so far form the
      [process] state, threaded through a small state-and-exception monad.

    Paths follow [posixpath], the [os.path] of the platforms lolopy runs on. *)

From Stdlib Require Import String Ascii List Bool Arith Lia.
From Stdlib.Strings Require Import Byte.
From stdpp Require Import base option gmap strings.

Import ListNotations.
Open Scope string_scope.

(** ** Python strings and bytes *)

Module Py.

(** [s.startswith(prefix)] *)
Fixpoint startswith (s prefix : string) : bool :=
  match prefix, s with
  | EmptyString, _ => true
  | String _ _, EmptyString => false
  | String c prefix', String d s' => Ascii.eqb c d && startswith s' prefix'
  end.

(** [s.endswith(suffix)]: [suffix] is [s] itself or a suffix of its tail. *)
Fixpoint endswith (s suffix : string) : bool :=
  String.eqb s suffix
  || match s with
     | EmptyString => false
     | String _ s' => endswith s' suffix
     end.

(** [data.startswith(prefix)] on [bytes]. *)
Fixpoint bytes_startswith (data prefix : list byte) : bool :=
  match prefix, data with
  | [], _ => true
  | _ :: _, [] => false
  | c :: prefix', d :: data' => Byte.eqb c d && bytes_startswith data' prefix'
  end.

(** A bytes literal [b'...']. *)
Definition b (s : string) : list byte := list_byte_of_string s.

(** [sep.join(parts)] *)
Definition str_join (sep : string) (parts : list string) : string :=
  String.concat sep parts.

(** [str(x)] for a value that is a string or [None], as [str.format]
    renders a [{}] field. *)
Definition str (x : option string) : string :=
  match x with
  | Some s => s
  | None => "None"
  end.

End Py.

(** ** [os.path] (posixpath) *)

Module posixpath.

Definition sep : string := "/".
Definition pathsep : string := ":".

(** One round of the loop of [posixpath.join]. *)
Definition join2 (path b : string) : string :=
  if Py.startswith b sep then b
  else if String.eqb path "" || Py.endswith path sep then path +:+ b
  else path +:+ sep +:+ b.

(** [os.path.join(a, *p)] *)
Definition join (a : string) (p : list string) : string :=
  fold_left join2 p a.

(** Index just after the last ['/'] of [p] ([p.rfind('/') + 1]). *)
Fixpoint after_last_sep (p : string) : nat :=
  match p with
  | EmptyString => 0
  | String c p' =>
      match after_last_sep p' with
      | 0 => if Ascii.eqb c "/" then 1 else 0
      | S i => S (S i)
      end
  end.

(** [s.rstrip('/')] *)
Fixpoint rstrip_sep (s : string) : string :=
  match s with
  | EmptyString => EmptyString
  | String c s' =>
      match rstrip_sep s' with
      | EmptyString => if Ascii.eqb c "/" then EmptyString else String c EmptyString
      | r => String c r
      end
  end.

(** [os.path.dirname(p)] *)
Definition dirname (p : string) : string :=
  let head := substring 0 (after_last_sep p) p in
  match rstrip_sep head with
  | EmptyString => head        (* empty, or nothing but slashes *)
  | stripped => stripped
  end.

End posixpath.

(** ** XML trees, as [xml.etree.ElementTree] presents them *)

#[local] Set Warnings "-register-all".

Inductive Element : Type :=
  Elem (tag : string) (text : option string) (children : list Element).

Definition Element_tag (e : Element) : string :=
  let 'Elem t _ _ := e in t.
Definition Element_text (e : Element) : option string :=
  let 'Elem _ t _ := e in t.
Definition Element_children (e : Element) : list Element :=
  let 'Elem _ _ c := e in c.

(** [tree.find(tag)] for a path that is a plain (namespaced) tag: the first
    child of the root carrying that tag, or [None]. *)
Definition Element_find (root : Element) (tag : string) : option Element :=
  List.find (fun c => String.eqb (Element_tag c) tag) (Element_children root).

(** ** Exceptions *)

Inductive exn : Type :=
| RuntimeError (msg : string)
| ValueError (msg : string)
| KeyError (key : string)
| AttributeError (msg : string)
| FileNotFoundError (filename : string)
| ParseError
| Py4JError (msg : string)
| IsADirectoryError (filename : string)
| PermissionError (filename : string)
| LookupError (msg : string)
| OSError (msg : string).

(** The class of an exception, which is what an [except] clause can tell
    apart. *)
Inductive exn_class : Type :=
  CRuntimeError | CValueError | CKeyError | CAttributeError
| CFileNotFoundError | CParseError | CPy4JError
| CIsADirectoryError | CPermissionError | CLookupError | COSError.

Definition class_of (e : exn) : exn_class :=
  match e with
  | RuntimeError _ => CRuntimeError
  | ValueError _ => CValueError
  | KeyError _ => CKeyError
  | AttributeError _ => CAttributeError
  | FileNotFoundError _ => CFileNotFoundError
  | ParseError => CParseError
  | Py4JError _ => CPy4JError
  | IsADirectoryError _ => CIsADirectoryError
  | PermissionError _ => CPermissionError
  | LookupError _ => CLookupError
  | OSError _ => COSError
  end.

(** ** The outside world *)

(** What [ElementTree.parse(path)] does with the file at [path]. *)
Inductive parse_outcome : Type :=
| NoSuchFile                      (* raises FileNotFoundError *)
| NotWellFormed                   (* raises ParseError *)
| ParseRaised (e : exn)           (* raises something else: IsADirectoryError,
                                     PermissionError, LookupError, ValueError, ... *)
| Parsed (root : Element).

(** [subprocess.CompletedProcess], with the two captured streams. *)
Record CompletedProcess : Type :=
  { stdout : list byte; stderr : list byte }.

(** What [subprocess.run(argv, stdout=PIPE, stderr=PIPE)] does. *)
Inductive run_outcome : Type :=
| ExecutableNotFound              (* raises FileNotFoundError *)
| RunRaised (e : exn)             (* found but not executable: PermissionError,
                                     OSError (Exec format error), ... *)
| Completed (proc : CompletedProcess).

Record World : Type :=
  { environ : gmap string string;             (* os.environ *)
    isdir : string -> bool;                    (* os.path.isdir *)
    isfile : string -> bool;                   (* os.path.isfile *)
    xml_parse : string -> parse_outcome;       (* ElementTree.parse *)
    (* subprocess.run: the child inherits the environment it is given *)
    run : gmap string string -> list string -> run_outcome;
    abspath : string -> string;                (* os.path.abspath, fixed by the cwd *)
    (* JavaGateway.launch_gateway: [Some e] when py4j fails with [e] *)
    launch_failure : string -> list string -> option exn }.

(** ** Process state *)

(** A launched gateway.  [gw_id] stands for the identity of the Python
    object: every launch makes a new one. *)
Record JavaGateway : Type :=
  { gw_id : nat; gw_classpath : string; gw_javaopts : list string }.

Inductive stream : Type := sys_stdout.

Inductive event : Type :=
| EnvContains (key : string)                  (* key in os.environ *)
| EnvGet (key : string)                       (* os.environ.get / os.environ[key] *)
| IsDir (path : string)
| IsFile (path : string)
| XmlParse (path : string)
| Run (argv : list string)
| Launch (classpath : string) (javaopts : list string)
         (redirect_stdout : stream) (die_on_exit : bool).

Record process : Type :=
  { _lolopy_gateway : option JavaGateway;     (* the module global *)
    launched : nat;                           (* child JVMs started so far *)
    syscalls : list event }.                  (* oldest first *)

Definition log (ev : event) (p : process) : process :=
  {| _lolopy_gateway := _lolopy_gateway p;
     launched := launched p;
     syscalls := syscalls p ++ [ev] |}.

(** ** The monad: read the world, thread the process state, maybe raise *)

Inductive result (A : Type) : Type :=
| Ok (a : A)
| Raise (e : exn).
Arguments Ok {A} a.
Arguments Raise {A} e.

Definition M (A : Type) : Type := World -> process -> result A * process.

Definition ret {A} (a : A) : M A := fun _ p => (Ok a, p).

Definition raise {A} (e : exn) : M A := fun _ p => (Raise e, p).

Definition bind {A B} (m : M A) (k : A -> M B) : M B :=
  fun w p =>
    match m w p with
    | (Ok a, p') => k a w p'
    | (Raise e, p') => (Raise e, p')
    end.

Notation "x <~ m ;; k" := (bind m (fun x => k))
  (at level 100, m at next level, right associativity).

(** *** Primitive operations *)

(** [key in os.environ] *)
Definition os_environ_contains (key : string) : M bool :=
  fun w p => (Ok (bool_decide (is_Some (environ w !! key))), log (EnvContains key) p).

(** [os.environ.get(key, default)] *)
Definition os_environ_get (key dflt : string) : M string :=
  fun w p => (Ok (default dflt (environ w !! key)), log (EnvGet key) p).

(** [os.environ[key]] *)
Definition os_environ_getitem (key : string) : M string :=
  fun w p =>
    (match environ w !! key with
     | Some v => Ok v
     | None => Raise (KeyError key)
     end, log (EnvGet key) p).

Definition os_path_isdir (path : string) : M bool :=
  fun w p => (Ok (isdir w path), log (IsDir path) p).

Definition os_path_isfile (path : string) : M bool :=
  fun w p => (Ok (isfile w path), log (IsFile path) p).

Definition ElementTree_parse (path : string) : M Element :=
  fun w p =>
    (match xml_parse w path with
     | NoSuchFile => Raise (FileNotFoundError path)
     | NotWellFormed => Raise ParseError
     | ParseRaised e => Raise e
     | Parsed root => Ok root
     end, log (XmlParse path) p).

(** [x.text] where [x] is an element or [None]. *)
Definition dot_text (x : option Element) : M (option string) :=
  match x with
  | Some e => ret (Element_text e)
  | None => raise (AttributeError "'NoneType' object has no attribute 'text'")
  end.

(** [subprocess.run(argv, stdout=PIPE, stderr=PIPE)]: no [env=] is passed,
    so the child gets [os.environ]. *)
Definition subprocess_run (argv : list string) : M CompletedProcess :=
  fun w p =>
    (match run w (environ w) argv with
     | ExecutableNotFound => Raise (FileNotFoundError (List.hd "" argv))
     | RunRaised e => Raise e
     | Completed proc => Ok proc
     end, log (Run argv) p).

(** [JavaGateway.launch_gateway(classpath=..., javaopts=...,
    redirect_stdout=..., die_on_exit=...)]: starts a child JVM and returns a
    new gateway object connected to it. *)
Definition JavaGateway_launch_gateway
    (classpath : string) (javaopts : list string)
    (redirect_stdout : stream) (die_on_exit : bool) : M JavaGateway :=
  fun w p =>
    let p' := log (Launch classpath javaopts redirect_stdout die_on_exit) p in
    match launch_failure w classpath javaopts with
    | Some e => (Raise e, p')
    | None =>
        (Ok {| gw_id := launched p;
               gw_classpath := classpath;
               gw_javaopts := javaopts |},
         {| _lolopy_gateway := _lolopy_gateway p';
            launched := S (launched p');
            syscalls := syscalls p' |})
    end.

(** Reading and assigning the global [_lolopy_gateway]. *)
Definition read_lolopy_gateway : M (option JavaGateway) :=
  fun _ p => (Ok (_lolopy_gateway p), p).

Definition assign_lolopy_gateway (g : JavaGateway) : M unit :=
  fun _ p =>
    (Ok tt, {| _lolopy_gateway := Some g;
               launched := launched p;
               syscalls := syscalls p |}).

(** ** The module *)

Section Loloserver.

(** The path of [loloserver.py] itself. *)
Variable __file__ : string.

(** Directory where the lolo project root should be *)
Definition _lolo_root : string :=
  posixpath.join (posixpath.dirname __file__) [".."; ".."].

(** Check whether lolopy is in a folder with the rest of lolo *)
Definition _is_development_installation : M bool :=
  os_path_isdir
    (posixpath.join _lolo_root ["src"; "main"; "scala"; "io"; "citrine"; "lolo"]).

(** Check whether Java is installed *)
Definition _java_is_installed (ignore_env : bool) : M bool :=
  (* Route 1: a file in the right spot for JAVA_HOME *)
  route1 <~ (if negb ignore_env
             then java_home <~ os_environ_get "JAVA_HOME" "." ;;
                  os_path_isfile (posixpath.join java_home ["bin"; "java"])
             else ret false) ;;
  if route1 then ret true
  else
    (* Route 2: ask the java on the PATH *)
    proc <~ subprocess_run ["java"; "-version"] ;;
    ret (Py.bytes_startswith (stdout proc) (Py.b "java version")
         || Py.bytes_startswith (stderr proc) (Py.b "java version")).

Definition devel_jar_missing : string :=
  "Current version of lolo jar not found. Try re-building project with make".
Definition local_jar_missing : string :=
  "Lolo not found. Try reinstalling lolo from PyPi.".

(** ['lolo-{}-jar-with-dependencies.jar'.format(lolo_version)] *)
Definition devel_jar_name (lolo_version : option string) : string :=
  "lolo-" +:+ Py.str lolo_version +:+ "-jar-with-dependencies.jar".

(** Attempt to automatically find a jar file for Lolo *)
Definition find_lolo_jar (skip_devel_version : bool) : M string :=
  devel <~ (if negb skip_devel_version
            then _is_development_installation
            else ret false) ;;
  jar_path <~
    (if devel then
       (* Get the version of lolo from the pom.xml file *)
       pom <~ ElementTree_parse (posixpath.join _lolo_root ["pom.xml"]) ;;
       lolo_version <~
         dot_text (Element_find pom "{http://maven.apache.org/POM/4.0.0}version") ;;
       (* Get the appropriate Jar *)
       let jar_path :=
         posixpath.join _lolo_root ["target"; devel_jar_name lolo_version] in
       present <~ os_path_isfile jar_path ;;
       if negb present then raise (RuntimeError devel_jar_missing)
       else ret jar_path
     else
       (* Use the local installation *)
       let jar_path :=
         posixpath.join (posixpath.dirname __file__)
                        ["jar"; "lolo-jar-with-dependencies.jar"] in
       present <~ os_path_isfile jar_path ;;
       if negb present then raise (RuntimeError local_jar_missing)
       else ret jar_path) ;;
  ret jar_path.

Definition java_not_found : string :=
  "Cannot find Java installation. Java must be installed and on your PATH".

(** The launch flags [java_options] that [get_java_gateway] builds before
    anything else: no defaults, plus [-Xmx] from [LOLOPY_JVM_MEMORY]. *)
Definition java_options : M (list string) :=
  let java_options : list string := [] in
  present <~ os_environ_contains "LOLOPY_JVM_MEMORY" ;;
  if present
  then memory <~ os_environ_getitem "LOLOPY_JVM_MEMORY" ;;
       ret (java_options ++ ["-Xmx" +:+ memory])%list
  else ret java_options.

(** Get a JavaGateway with Lolo on the class path.  The value returned is
    that of the global, which Python types as a gateway or [None]. *)
Definition get_java_gateway (reuse skip_devel_version : bool)
  : M (option JavaGateway) :=
  java_options <~ java_options ;;
  current <~ read_lolopy_gateway ;;
  _ <~ (if bool_decide (current = None) || negb reuse then
          (* Make sure lolo is installed *)
          lolo_path <~ find_lolo_jar skip_devel_version ;;
          (* Check if Java is installed *)
          installed <~ _java_is_installed false ;;
          if negb installed then raise (ValueError java_not_found)
          else
            (* Launch the gateway *)
            classpath <~ (fun w p =>
               (Ok (Py.str_join posixpath.pathsep [abspath w lolo_path]), p)) ;;
            gateway <~ JavaGateway_launch_gateway
                         classpath java_options sys_stdout true ;;
            assign_lolopy_gateway gateway
        else ret tt) ;;
  read_lolopy_gateway.

End Loloserver.

(** ** Vocabulary for stating what a call does *)

(** Kinds of system call. *)
Definition is_launch (ev : event) : bool :=
  match ev with Launch _ _ _ _ => true | _ => false end.

Definition is_spawn (ev : event) : bool :=
  match ev with Run _ | Launch _ _ _ _ => true | _ => false end.

Definition is_file_probe (ev : event) : bool :=
  match ev with IsDir _ | IsFile _ | XmlParse _ => true | _ => false end.

Definition reads_variable (key : string) (ev : event) : bool :=
  match ev with
  | EnvContains k | EnvGet k => String.eqb k key
  | _ => false
  end.

(** [p'] is [p] after the system calls [evs]: the global is untouched and no
    JVM was started. *)
Definition only_logged (p p' : process) (evs : list event) : Prop :=
  p' = {| _lolopy_gateway := _lolopy_gateway p;
          launched := launched p;
          syscalls := syscalls p ++ evs |}.

(** The flags [java_options] yields in world [w]. *)
Definition memory_flags (w : World) : list string :=
  match environ w !! "LOLOPY_JVM_MEMORY" with
  | Some memory => ["-Xmx" +:+ memory]
  | None => []
  end.

(** The state after [java_options] ran. *)
Definition after_java_options (w : World) (p : process) : process :=
  match environ w !! "LOLOPY_JVM_MEMORY" with
  | Some _ => log (EnvGet "LOLOPY_JVM_MEMORY") (log (EnvContains "LOLOPY_JVM_MEMORY") p)
  | None => log (EnvContains "LOLOPY_JVM_MEMORY") p
  end.

(** The gateway object a launch creates in state [p]. *)
Definition new_gateway (w : World) (lolo_path : string) (p : process) : JavaGateway :=
  {| gw_id := launched p;
     gw_classpath := abspath w lolo_path;
     gw_javaopts := memory_flags w |}.

(** The state after a launch, successful or not, that started in [p]. *)
Definition after_launch (w : World) (lolo_path : string) (p : process) : process :=
  let p' := log (Launch (abspath w lolo_path) (memory_flags w) sys_stdout true) p in
  match launch_failure w (abspath w lolo_path) (memory_flags w) with
  | Some _ => p'
  | None =>
      {| _lolopy_gateway := Some (new_gateway w lolo_path p);
         launched := S (launched p);
         syscalls := syscalls p' |}
  end.

(** The directory that marks a checkout, and the pom.xml next to it. *)
Definition devel_marker (file : string) : string :=
  posixpath.join (_lolo_root file) ["src"; "main"; "scala"; "io"; "citrine"; "lolo"].
Definition devel_pom (file : string) : string :=
  posixpath.join (_lolo_root file) ["pom.xml"].

Definition version_tag : string := "{http://maven.apache.org/POM/4.0.0}version".

(** The exception an unusable pom.xml leads to: the one of
    [ElementTree.parse], or that of reading [.text] off [None]. *)
Definition descriptor_failure (pom_path : string) (outcome : parse_outcome)
  : option exn :=
  match outcome with
  | NoSuchFile => Some (FileNotFoundError pom_path)
  | NotWellFormed => Some ParseError
  | ParseRaised _ => None         (* any other failure of the parser *)
  | Parsed root =>
      match Element_find root version_tag with
      | Some _ => None
      | None => Some (AttributeError "'NoneType' object has no attribute 'text'")
      end
  end.

(** Two worlds that differ at most in the environment variable [key]. *)
Definition same_but_variable (key : string) (w1 w2 : World) : Prop :=
  delete key (environ w1) = delete key (environ w2)
  /\ isdir w1 = isdir w2
  /\ isfile w1 = isfile w2
  /\ xml_parse w1 = xml_parse w2
  /\ run w1 = run w2
  /\ abspath w1 = abspath w2
  /\ launch_failure w1 = launch_failure w2.

(** ** Concrete installations, used to run the module *)

Module Sample.

Definition module_file : string := "/opt/lolo/python/lolopy/loloserver.py".

Definition marker : string :=
  "/opt/lolo/python/lolopy/../../src/main/scala/io/citrine/lolo".
Definition pom_path : string := "/opt/lolo/python/lolopy/../../pom.xml".
Definition local_jar : string :=
  "/opt/lolo/python/lolopy/jar/lolo-jar-with-dependencies.jar".
Definition devel_jar : string :=
  "/opt/lolo/python/lolopy/../../target/lolo-1.0.3-jar-with-dependencies.jar".

Definition pom_tag (name : string) : string :=
  "{http://maven.apache.org/POM/4.0.0}" +:+ name.

Definition version_element_tag : string := pom_tag "version".

(** A pom.xml naming version 1.0.3. *)
Definition pom : Element :=
  Elem (pom_tag "project") None
    [ Elem (pom_tag "groupId") (Some "io.citrine") [];
      Elem (pom_tag "artifactId") (Some "lolo") [];
      Elem (pom_tag "version") (Some "1.0.3") [] ].

(** A pom.xml without a version element. *)
Definition pom_without_version : Element :=
  Elem (pom_tag "project") None
    [ Elem (pom_tag "groupId") (Some "io.citrine") [];
      Elem (pom_tag "artifactId") (Some "lolo") [] ].

Definition java_banner : CompletedProcess :=
  {| stdout := []; stderr := Py.b "java version 9" |}.

Definition make_world (env : gmap string string) (dirs files : list string)
    (descriptor : parse_outcome) (java : run_outcome) : World :=
  {| environ := env;
     isdir := fun p => existsb (String.eqb p) dirs;
     isfile := fun p => existsb (String.eqb p) files;
     xml_parse := fun p => if String.eqb p pom_path then descriptor else NoSuchFile;
     run := fun _ _ => java;
     abspath := fun p => p;
     launch_failure := fun _ _ => None |}.

(** Installed from PyPi, Java on the PATH. *)
Definition packaged : World :=
  make_world ∅ [] [local_jar] NoSuchFile (Completed java_banner).

(** Installed from PyPi, no Java anywhere. *)
Definition packaged_no_java : World :=
  make_world ∅ [] [local_jar] NoSuchFile ExecutableNotFound.

(** Installed from PyPi; a [java] on the PATH that is not recognised. *)
Definition packaged_other_java : World :=
  make_world ∅ [] [local_jar] NoSuchFile
             (Completed {| stdout := []; stderr := Py.b "openjdk version 11" |}).

(** Nothing installed. *)
Definition bare : World :=
  make_world ∅ [] [] NoSuchFile (Completed java_banner).

(** As [packaged], with the heap size set to the empty string. *)
Definition packaged_empty_memory : World :=
  make_world {[ "LOLOPY_JVM_MEMORY" := "" ]} [] [local_jar] NoSuchFile
             (Completed java_banner).

(** As [packaged], with a 2g heap. *)
Definition packaged_2g : World :=
  make_world {[ "LOLOPY_JVM_MEMORY" := "2g" ]} [] [local_jar] NoSuchFile
             (Completed java_banner).

(** As [packaged], with JAVA_HOME set. *)
Definition packaged_java_home : World :=
  make_world {[ "JAVA_HOME" := "/usr/lib/jvm/default" ]} [] [local_jar]
             NoSuchFile (Completed java_banner).

(** A source checkout, built. *)
Definition checkout : World :=
  make_world ∅ [marker] [devel_jar; local_jar] (Parsed pom) (Completed java_banner).

(** A source checkout that was never built, next to a packaged jar. *)
Definition checkout_unbuilt : World :=
  make_world ∅ [marker] [local_jar] (Parsed pom) (Completed java_banner).

(** Source checkouts whose pom.xml cannot be used. *)
Definition checkout_no_pom : World :=
  make_world ∅ [marker] [local_jar] NoSuchFile (Completed java_banner).
Definition checkout_bad_pom : World :=
  make_world ∅ [marker] [local_jar] NotWellFormed (Completed java_banner).
Definition checkout_no_version : World :=
  make_world ∅ [marker] [local_jar] (Parsed pom_without_version)
             (Completed java_banner).

(** A fresh interpreter: no gateway, nothing done yet. *)
Definition fresh : process :=
  {| _lolopy_gateway := None; launched := 0; syscalls := [] |}.

(** An interpreter that already holds a gateway. *)
Definition stored : JavaGateway :=
  {| gw_id := 0; gw_classpath := local_jar; gw_javaopts := [] |}.
Definition running : process :=
  {| _lolopy_gateway := Some stored;
     launched := 1;
     syscalls := [] |}.

(** A pom.xml whose version element is empty. *)
Definition pom_blank_version : Element :=
  Elem (pom_tag "project") None
    [ Elem (pom_tag "artifactId") (Some "lolo") [];
      Elem (pom_tag "version") None [] ].

(** A checkout with such a pom.xml. *)
Definition checkout_blank_version : World :=
  make_world ∅ [marker] [local_jar] (Parsed pom_blank_version) (Completed java_banner).

(** Installed from PyPi, with a JDK under JAVA_HOME and no java on the PATH. *)
Definition packaged_jdk_home : World :=
  make_world {[ "JAVA_HOME" := "/usr/lib/jvm/default" ]} []
             [local_jar; "/usr/lib/jvm/default/bin/java"] NoSuchFile
             ExecutableNotFound.

(** As [packaged], but py4j cannot start the JVM. *)
Definition packaged_launch_fails : World :=
  {| environ := ∅;
     isdir := fun _ => false;
     isfile := fun p => String.eqb p local_jar;
     xml_parse := fun _ => NoSuchFile;
     run := fun _ _ => Completed java_banner;
     abspath := fun p => p;
     launch_failure := fun _ _ => Some (Py4JError "gateway process exited") |}.

(** A [java] on the PATH that is only a launcher: it starts the JDK that
    JAVA_HOME names and complains when the variable is unset, as
    [/usr/bin/java] does on macOS. *)
Definition java_launcher (env : gmap string string) : run_outcome :=
  match env !! "JAVA_HOME" with
  | Some _ => Completed java_banner
  | None =>
      Completed {| stdout := [];
                   stderr := Py.b "Unable to locate a Java Runtime." |}
  end.

(** A PyPi installation on a machine with that launcher. *)
Definition launcher_world (env : gmap string string) : World :=
  {| environ := env;
     isdir := fun _ => false;
     isfile := fun p => String.eqb p local_jar;
     xml_parse := fun _ => NoSuchFile;
     run := fun child_env _ => java_launcher child_env;
     abspath := fun p => p;
     launch_failure := fun _ _ => None |}.

Definition launcher_no_home : World := launcher_world ∅.
Definition launcher_with_home : World :=
  launcher_world {[ "JAVA_HOME" := "/usr/lib/jvm/default" ]}.

(** A JDK installed under [/usr/lib/jvm/default], and on the PATH a java
    whose banner is not recognised. *)
Definition jdk_beside_other_java (env : gmap string string) : World :=
  make_world env [] [local_jar; "/usr/lib/jvm/default/bin/java"] NoSuchFile
             (Completed {| stdout := []; stderr := Py.b "openjdk version 11" |}).

(** A pom.xml that is there but may not be read. *)
Definition checkout_unreadable_pom : World :=
  make_world ∅ [marker] [local_jar]
             (ParseRaised (PermissionError pom_path)) (Completed java_banner).

(** A java on the PATH that is not an executable for this machine. *)
Definition packaged_broken_java : World :=
  make_world ∅ [] [local_jar] NoSuchFile
             (RunRaised (OSError "[Errno 8] Exec format error: 'java'")).

End Sample.

(** ** Further vocabulary *)

(** The exception [ElementTree.parse(path)] raises, if it raises. *)
Definition parse_exception (path : string) (outcome : parse_outcome) : option exn :=
  match outcome with
  | NoSuchFile => Some (FileNotFoundError path)
  | NotWellFormed => Some ParseError
  | ParseRaised e => Some e
  | Parsed _ => None
  end.

(** The exception [subprocess.run(argv, ...)] raises, if it raises. *)
Definition run_exception (argv : list string) (outcome : run_outcome) : option exn :=
  match outcome with
  | ExecutableNotFound => Some (FileNotFoundError (List.hd "" argv))
  | RunRaised e => Some e
  | Completed _ => None
  end.

(** The jar shipped inside the package, next to [loloserver.py]. *)
Definition local_jar_path (file : string) : string :=
  posixpath.join (posixpath.dirname file) ["jar"; "lolo-jar-with-dependencies.jar"].

(** Where Route 1 of [_java_is_installed] looks for the java binary. *)
Definition java_home_binary (w : World) : string :=
  posixpath.join (default "." (environ w !! "JAVA_HOME")) ["bin"; "java"].

(** The gateway in the global, if any, was made by one of the launches
    counted so far. *)
Definition stored_was_launched (p : process) : Prop :=
  forall h, _lolopy_gateway p = Some h -> gw_id h < launched p.

(** The exceptions [find_lolo_jar] can end with in world [w]: its own two
    [RuntimeError]s, whatever parsing the pom.xml raises there, and the
    [AttributeError] of reading [.text] off [None]. *)
Definition is_find_lolo_jar_error (file : string) (w : World) (e : exn) : Prop :=
  e = RuntimeError devel_jar_missing
  \/ e = RuntimeError local_jar_missing
  \/ parse_exception (devel_pom file) (xml_parse w (devel_pom file)) = Some e
  \/ e = AttributeError "'NoneType' object has no attribute 'text'".

(** ** Facts about paths *)

Lemma append_assoc (a b c : string) : (a +:+ b) +:+ c = a +:+ (b +:+ c).
Proof.
  induction a as [| x a IH]; [ reflexivity | ].
  change (String x (a +:+ b +:+ c) = String x ((a +:+ b) +:+ c)) ||
  change (String x ((a +:+ b) +:+ c) = String x (a +:+ b +:+ c)).
  now rewrite IH.
Qed.

Lemma append_not_empty (a b : string) : b <> "" -> a +:+ b <> "".
Proof. destruct a; simpl; [ easy | discriminate ]. Qed.

Lemma endswith_sep_append (a b : string) :
  b <> "" -> Py.endswith (a +:+ b) "/" = Py.endswith b "/".
Proof.
  intros Hb. induction a as [| c a IH]; [ reflexivity | ].
  change (String c a +:+ b) with (String c (a +:+ b)).
  cbn [Py.endswith]. rewrite IH.
  destruct (String.eqb_spec (String c (a +:+ b)) "/") as [E | _]; [ | reflexivity ].
  exfalso. injection E as _ E. now apply (append_not_empty a b).
Qed.

(** Joining a relative component onto a path that does not end in a slash
    puts exactly one slash between them. *)
Lemma join2_relative (path b : string) :
  Py.startswith b "/" = false ->
  path <> "" -> Py.endswith path "/" = false ->
  posixpath.join2 path b = path +:+ "/" +:+ b.
Proof.
  intros Hb Hne Hend. unfold posixpath.join2, posixpath.sep.
  rewrite Hb, Hend. destruct (String.eqb_spec path ""); [ contradiction | reflexivity ].
Qed.

(** Joining [..] onto anything yields a path ending in [..]. *)
Lemma join2_dotdot (path : string) :
  exists d, posixpath.join2 path ".." = d +:+ "..".
Proof.
  unfold posixpath.join2, posixpath.sep. cbn [Py.startswith Ascii.eqb Bool.eqb andb].
  destruct (_ || _).
  - now exists path.
  - exists (path +:+ "/"). now rewrite append_assoc.
Qed.

Lemma lolo_root_dotdot (file : string) :
  exists d, _lolo_root file = d +:+ "..".
Proof. unfold _lolo_root, posixpath.join. cbn [fold_left]. apply join2_dotdot. Qed.

Lemma lolo_root_not_empty (file : string) : _lolo_root file <> "".
Proof.
  destruct (lolo_root_dotdot file) as [d ->]. now apply append_not_empty.
Qed.

Lemma lolo_root_no_trailing_sep (file : string) :
  Py.endswith (_lolo_root file) "/" = false.
Proof.
  destruct (lolo_root_dotdot file) as [d ->].
  now rewrite endswith_sep_append.
Qed.

(** The development jar sits in [target] under the project root, and its
    name is the fixed template around the version. *)
Lemma devel_jar_path (file v : string) :
  posixpath.join (_lolo_root file) ["target"; devel_jar_name (Some v)]
  = _lolo_root file +:+ "/target/lolo-" +:+ v +:+ "-jar-with-dependencies.jar".
Proof.
  unfold posixpath.join. cbn [fold_left].
  rewrite (join2_relative (_lolo_root file) "target");
    [ | reflexivity | apply lolo_root_not_empty | apply lolo_root_no_trailing_sep ].
  rewrite join2_relative.
  - unfold devel_jar_name, Py.str.
    now rewrite !append_assoc.
  - reflexivity.
  - apply append_not_empty. discriminate.
  - rewrite endswith_sep_append by discriminate. reflexivity.
Qed.

(** ** What a call leaves behind *)

Lemma only_logged_refl (p : process) : only_logged p p [].
Proof. unfold only_logged. rewrite app_nil_r. now destruct p. Qed.

Lemma only_logged_log (p : process) (ev : event) : only_logged p (log ev p) [ev].
Proof. reflexivity. Qed.

Lemma only_logged_trans (p p' p'' : process) (evs evs' : list event) :
  only_logged p p' evs -> only_logged p' p'' evs' ->
  only_logged p p'' (evs ++ evs').
Proof.
  unfold only_logged. intros -> ->. cbn. now rewrite app_assoc.
Qed.

Lemma only_logged_gateway (p p' : process) (evs : list event) :
  only_logged p p' evs -> _lolopy_gateway p' = _lolopy_gateway p.
Proof. now intros ->. Qed.

Lemma only_logged_launched (p p' : process) (evs : list event) :
  only_logged p p' evs -> launched p' = launched p.
Proof. now intros ->. Qed.

Lemma only_logged_step (p p' : process) (evs : list event) (ev : event) :
  only_logged p p' evs -> only_logged p (log ev p') (evs ++ [ev]).
Proof.
  intros H. eapply only_logged_trans; [ exact H | apply only_logged_log ].
Qed.

(** Solves [only_logged p (log e_n (... (log e_1 p))) ?evs]. *)
Ltac logged := repeat eapply only_logged_step; apply only_logged_refl.

(** Unfolds one layer of monadic plumbing and the primitives. *)
Ltac unfold_monad :=
  unfold bind, ret, raise,
    os_environ_contains, os_environ_get, os_environ_getitem,
    os_path_isdir, os_path_isfile, ElementTree_parse, dot_text,
    subprocess_run, read_lolopy_gateway, assign_lolopy_gateway in *.

Lemma java_options_eq (w : World) (p : process) :
  java_options w p = (Ok (memory_flags w), after_java_options w p).
Proof.
  unfold java_options, memory_flags, after_java_options. unfold_monad.
  destruct (environ w !! "LOLOPY_JVM_MEMORY") as [memory |] eqn:E.
  - rewrite bool_decide_true by eauto. now rewrite E.
  - rewrite bool_decide_false; [ reflexivity | ].
    intros [v Hv]. discriminate.
Qed.

Lemma after_java_options_logged (w : World) (p : process) :
  exists evs,
    only_logged p (after_java_options w p) evs
    /\ forallb (reads_variable "LOLOPY_JVM_MEMORY") evs = true.
Proof.
  unfold after_java_options.
  destruct (environ w !! "LOLOPY_JVM_MEMORY").
  - eexists; split; [ logged | reflexivity ].
  - eexists; split; [ logged | reflexivity ].
Qed.

(** Locating the jar only probes the file system. *)
Lemma find_lolo_jar_logged (file : string) (skip : bool) (w : World)
    (p p' : process) (r : result string) :
  find_lolo_jar file skip w p = (r, p') ->
  exists evs, only_logged p p' evs /\ forallb is_file_probe evs = true.
Proof.
  unfold find_lolo_jar, _is_development_installation. unfold_monad.
  destruct skip; cbn [negb].
  - destruct (isfile w _); cbn [negb]; intros [= <- <-];
      (eexists; split; [ logged | reflexivity ]).
  - destruct (isdir w _).
    + destruct (xml_parse w _) as [| | e0 | root].
      * intros [= <- <-]. eexists; split; [ logged | reflexivity ].
      * intros [= <- <-]. eexists; split; [ logged | reflexivity ].
      * intros [= <- <-]. eexists; split; [ logged | reflexivity ].
      * destruct (Element_find root _) as [version |]; unfold_monad; cbv beta iota.
        -- destruct (isfile w _); cbn [negb]; intros [= <- <-];
             (eexists; split; [ logged | reflexivity ]).
        -- intros [= <- <-]. eexists; split; [ logged | reflexivity ].
    + destruct (isfile w _); cbn [negb]; intros [= <- <-];
        (eexists; split; [ logged | reflexivity ]).
Qed.

(** Checking for Java never launches a gateway. *)
Lemma java_is_installed_logged (ignore_env : bool) (w : World)
    (p p' : process) (r : result bool) :
  _java_is_installed ignore_env w p = (r, p') ->
  exists evs, only_logged p p' evs /\ existsb is_launch evs = false.
Proof.
  unfold _java_is_installed. unfold_monad.
  destruct ignore_env; cbn [negb].
  - destruct (run w _ _); intros [= <- <-];
      (eexists; split; [ logged | reflexivity ]).
  - destruct (isfile w _).
    + intros [= <- <-]. eexists; split; [ logged | reflexivity ].
    + destruct (run w _ _); intros [= <- <-];
        (eexists; split; [ logged | reflexivity ]).
Qed.

Lemma after_java_options_gateway (w : World) (p : process) :
  _lolopy_gateway (after_java_options w p) = _lolopy_gateway p.
Proof. unfold after_java_options. now destruct (environ w !! _). Qed.

Lemma after_java_options_launched (w : World) (p : process) :
  launched (after_java_options w p) = launched p.
Proof. unfold after_java_options. now destruct (environ w !! _). Qed.

(** The cached path of [get_java_gateway]. *)
Lemma get_java_gateway_cached (file : string) (skip : bool) (w : World)
    (p : process) (h : JavaGateway) :
  _lolopy_gateway p = Some h ->
  get_java_gateway file true skip w p = (Ok (Some h), after_java_options w p).
Proof.
  intros Hh. unfold get_java_gateway, bind at 1.
  rewrite java_options_eq. unfold_monad.
  rewrite after_java_options_gateway, Hh.
  rewrite bool_decide_false by discriminate.
  cbn [orb negb]. now rewrite after_java_options_gateway, Hh.
Qed.

(** The launching path of [get_java_gateway], step by step. *)
Lemma get_java_gateway_launching (file : string) (reuse skip : bool) (w : World)
    (p : process) :
  _lolopy_gateway p = None \/ reuse = false ->
  get_java_gateway file reuse skip w p =
    match find_lolo_jar file skip w (after_java_options w p) with
    | (Raise e, p2) => (Raise e, p2)
    | (Ok lolo_path, p2) =>
        match _java_is_installed false w p2 with
        | (Raise e, p3) => (Raise e, p3)
        | (Ok false, p3) => (Raise (ValueError java_not_found), p3)
        | (Ok true, p3) =>
            (match launch_failure w (abspath w lolo_path) (memory_flags w) with
             | Some e => Raise e
             | None => Ok (Some (new_gateway w lolo_path p3))
             end, after_launch w lolo_path p3)
        end
    end.
Proof.
  intros Hmust. unfold get_java_gateway, bind at 1.
  rewrite java_options_eq. unfold bind at 1, read_lolopy_gateway at 1.
  assert (bool_decide (_lolopy_gateway (after_java_options w p) = None) || negb reuse
          = true) as ->.
  { rewrite after_java_options_gateway.
    destruct Hmust as [-> | ->]; [ reflexivity | apply orb_true_r ]. }
  unfold bind.
  destruct (find_lolo_jar file skip w _) as [[lolo_path | e] p2]; [ | reflexivity ].
  destruct (_java_is_installed false w p2) as [[[|] | e] p3]; cbn [negb];
    [ | reflexivity | reflexivity ].
  unfold JavaGateway_launch_gateway, after_launch, new_gateway, Py.str_join.
  cbn [String.concat].
  destruct (launch_failure w _ _); reflexivity.
Qed.

(** ** Checking for Java *)

(** With [ignore_env] set, the check is exactly the [java -version] probe. *)
Lemma java_is_installed_ignore_env (w : World) (p : process) :
  _java_is_installed true w p =
    (match run w (environ w) ["java"; "-version"] with
     | ExecutableNotFound => Raise (FileNotFoundError "java")
     | RunRaised e => Raise e
     | Completed proc =>
         Ok (Py.bytes_startswith (stdout proc) (Py.b "java version")
             || Py.bytes_startswith (stderr proc) (Py.b "java version"))
     end, log (Run ["java"; "-version"]) p).
Proof.
  unfold _java_is_installed. unfold_monad. cbn [negb hd].
  now destruct (run w _ _).
Qed.

(** Without a [java] to run and without one under JAVA_HOME, the check does
    not answer: the error of [subprocess.run] comes out of it. *)
Lemma java_is_installed_no_executable (ignore_env : bool) (w : World) (p : process) :
  run w (environ w) ["java"; "-version"] = ExecutableNotFound ->
  ignore_env = true
  \/ isfile w (posixpath.join (default "." (environ w !! "JAVA_HOME")) ["bin"; "java"])
     = false ->
  fst (_java_is_installed ignore_env w p) = Raise (FileNotFoundError "java").
Proof.
  intros Hrun Hroute1. unfold _java_is_installed. unfold_monad.
  destruct ignore_env; cbn [negb].
  - now rewrite Hrun.
  - destruct Hroute1 as [? | ->]; [ discriminate | ]. now rewrite Hrun.
Qed.

(** A [java] that runs but prints an unknown banner is reported as absent,
    and [get_java_gateway] then raises its own [ValueError]. *)
Example unknown_banner_is_reported :
  fst (_java_is_installed false Sample.packaged_other_java Sample.fresh) = Ok false
  /\ fst (get_java_gateway Sample.module_file true false
            Sample.packaged_other_java Sample.fresh)
     = Raise (ValueError java_not_found).
Proof. split; reflexivity. Qed.

(** C1.  The claim: when the [java] executable cannot be spawned,
    [_java_is_installed] answers [False] and raises nothing.  The code does
    not: on an installation without Java, with or without [ignore_env], the
    [FileNotFoundError] of [subprocess.run] leaves [_java_is_installed], and
    [get_java_gateway] fails with it instead of its "Cannot find Java
    installation" [ValueError]. *)
Theorem java_is_installed_raises_without_java :
  fst (_java_is_installed true Sample.packaged_no_java Sample.fresh)
    = Raise (FileNotFoundError "java")
  /\ fst (_java_is_installed false Sample.packaged_no_java Sample.fresh)
    = Raise (FileNotFoundError "java")
  /\ fst (get_java_gateway Sample.module_file true false
            Sample.packaged_no_java Sample.fresh)
    = Raise (FileNotFoundError "java").
Proof. repeat split; reflexivity. Qed.

(** ** Re-using the gateway *)

(** A successful call leaves the gateway it returns in the global. *)
Lemma get_java_gateway_ok_stored (file : string) (reuse skip : bool) (w : World)
    (p p' : process) (g : option JavaGateway) :
  get_java_gateway file reuse skip w p = (Ok g, p') ->
  _lolopy_gateway p' = g /\ exists h, g = Some h.
Proof.
  destruct (_lolopy_gateway p) as [h |] eqn:Hp; [ destruct reuse | ].
  - rewrite (get_java_gateway_cached _ _ _ _ h Hp). intros [= <- <-].
    rewrite after_java_options_gateway. eauto.
  - rewrite get_java_gateway_launching by now right.
    destruct (find_lolo_jar _ _ _ _) as [[path | e] p2]; [ | discriminate ].
    destruct (_java_is_installed _ _ _) as [[[|] | e] p3]; try discriminate.
    unfold after_launch.
    destruct (launch_failure _ _ _); [ discriminate | ].
    intros [= <- <-]. eauto.
  - rewrite get_java_gateway_launching by now left.
    destruct (find_lolo_jar _ _ _ _) as [[path | e] p2]; [ | discriminate ].
    destruct (_java_is_installed _ _ _) as [[[|] | e] p3]; try discriminate.
    unfold after_launch.
    destruct (launch_failure _ _ _); [ discriminate | ].
    intros [= <- <-]. eauto.
Qed.

(** C2.  When a gateway is stored in [_lolopy_gateway] and [reuse] is true,
    [get_java_gateway] returns that very gateway and keeps it stored; no JVM
    is started, and the only system calls made are reads of
    [LOLOPY_JVM_MEMORY]: no directory or file is probed, no pom.xml parsed,
    JAVA_HOME is not read, and nothing is run or launched. *)
Theorem reuse_returns_stored_gateway (file : string) (skip : bool) (w : World)
    (p : process) (h : JavaGateway) :
  _lolopy_gateway p = Some h ->
  exists p' evs,
    get_java_gateway file true skip w p = (Ok (Some h), p')
    /\ _lolopy_gateway p' = Some h
    /\ launched p' = launched p
    /\ syscalls p' = (syscalls p ++ evs)%list
    /\ forallb (reads_variable "LOLOPY_JVM_MEMORY") evs = true.
Proof.
  intros Hh.
  destruct (after_java_options_logged w p) as (evs & Hlog & Hevs).
  exists (after_java_options w p), evs.
  split; [ now apply get_java_gateway_cached | ].
  rewrite Hlog. cbn. auto.
Qed.

Lemma reuse_returns_stored_gateway_witness :
  _lolopy_gateway Sample.running = Some Sample.stored
  /\ exists p' evs,
      get_java_gateway Sample.module_file true false Sample.checkout Sample.running
        = (Ok (Some Sample.stored), p')
      /\ _lolopy_gateway p' = Some Sample.stored
      /\ launched p' = launched Sample.running
      /\ syscalls p' = (syscalls Sample.running ++ evs)%list
      /\ forallb (reads_variable "LOLOPY_JVM_MEMORY") evs = true.
Proof.
  split; [ reflexivity | ].
  apply (reuse_returns_stored_gateway Sample.module_file false Sample.checkout
           Sample.running Sample.stored).
  reflexivity.
Defined.

(** X15.  A launch followed by a re-using call: whatever the world at the
    time of the second call, it hands back the gateway the first call
    returned and starts no JVM. *)
Lemma launch_then_reuse (file : string) (reuse skip skip' : bool) (w w' : World)
    (p p1 : process) (g : option JavaGateway) :
  get_java_gateway file reuse skip w p = (Ok g, p1) ->
  fst (get_java_gateway file true skip' w' p1) = Ok g
  /\ launched (snd (get_java_gateway file true skip' w' p1)) = launched p1.
Proof.
  intros Hfirst.
  destruct (get_java_gateway_ok_stored _ _ _ _ _ _ _ Hfirst) as (Hstored & h & ->).
  rewrite (get_java_gateway_cached _ _ _ _ h Hstored). cbn [fst snd].
  now rewrite after_java_options_launched.
Qed.

(** ** Launch flags *)

(** C3, as stated, fails: a heap-size variable that is set to the empty
    string still yields a flag, the bare [-Xmx]. *)
Lemma empty_memory_variable_yields_flag :
  environ Sample.packaged_empty_memory !! "LOLOPY_JVM_MEMORY" = Some ""
  /\ fst (java_options Sample.packaged_empty_memory Sample.fresh) = Ok ["-Xmx"]
  /\ fst (java_options Sample.packaged_empty_memory Sample.fresh) <> Ok [].
Proof.
  split; [ reflexivity | split; [ reflexivity | ] ].
  intros H. vm_compute in H. discriminate H.
Qed.

(** C3, amended.  The flag list is decided by the presence of
    [LOLOPY_JVM_MEMORY] alone: present with value [v], empty or not, the
    flags are exactly [["-Xmx" + v]]; absent, there are none. *)
Theorem java_options_from_memory_variable (w : World) (p : process) :
  fst (java_options w p) =
    Ok match environ w !! "LOLOPY_JVM_MEMORY" with
       | Some v => ["-Xmx" +:+ v]
       | None => []
       end.
Proof.
  unfold java_options. unfold_monad.
  destruct (environ w !! "LOLOPY_JVM_MEMORY") as [v |] eqn:Hvar.
  - rewrite bool_decide_true by eauto. now rewrite Hvar.
  - rewrite bool_decide_false; [ reflexivity | ].
    intros [v Hv]. discriminate Hv.
Qed.

Example java_options_2g :
  fst (java_options Sample.packaged_2g Sample.fresh) = Ok ["-Xmx2g"]
  /\ fst (java_options Sample.packaged Sample.fresh) = Ok [].
Proof. split; reflexivity. Qed.

(** ** Locating the jar *)

(** C4.  Whatever the file system and whatever [skip_devel_version], a path
    returned by [find_lolo_jar] is the path of an existing file. *)
Theorem find_lolo_jar_returns_existing_file (file : string) (skip : bool)
    (w : World) (p p' : process) (jar_path : string) :
  find_lolo_jar file skip w p = (Ok jar_path, p') ->
  isfile w jar_path = true.
Proof.
  unfold find_lolo_jar, _is_development_installation. unfold_monad.
  destruct skip; cbn [negb].
  - destruct (isfile w _) eqn:Hfile; cbn [negb]; [ | discriminate ].
    now intros [= <- _].
  - destruct (isdir w _).
    + destruct (xml_parse w _) as [| | e0 | root]; try discriminate.
      destruct (Element_find root _) as [version |]; unfold_monad; cbv beta iota;
        [ | discriminate ].
      destruct (isfile w _) eqn:Hfile; cbn [negb]; [ | discriminate ].
      now intros [= <- _].
    + destruct (isfile w _) eqn:Hfile; cbn [negb]; [ | discriminate ].
      now intros [= <- _].
Qed.

Lemma find_lolo_jar_returns_existing_file_witness :
  find_lolo_jar Sample.module_file false Sample.checkout Sample.fresh
    = (Ok Sample.devel_jar,
       log (IsFile Sample.devel_jar)
         (log (XmlParse Sample.pom_path) (log (IsDir Sample.marker) Sample.fresh)))
  /\ isfile Sample.checkout Sample.devel_jar = true.
Proof.
  split; [ reflexivity | ].
  apply (find_lolo_jar_returns_existing_file Sample.module_file false
           Sample.checkout Sample.fresh
           (log (IsFile Sample.devel_jar)
              (log (XmlParse Sample.pom_path) (log (IsDir Sample.marker) Sample.fresh)))).
  reflexivity.
Defined.

(** C5.  In a checkout (marker directory present) whose pom.xml names
    version [v], [find_lolo_jar(False)] looks at exactly one jar,
    [<root>/target/lolo-<v>-jar-with-dependencies.jar]: it returns that path
    when the file exists, and otherwise raises the "Current version of lolo
    jar not found" [RuntimeError].  The packaged jar is never probed,
    whether it exists or not. *)
Theorem devel_jar_or_error (file : string) (w : World) (p : process)
    (root version : Element) (v : string) :
  isdir w (devel_marker file) = true ->
  xml_parse w (devel_pom file) = Parsed root ->
  Element_find root version_tag = Some version ->
  Element_text version = Some v ->
  let jar_path :=
    _lolo_root file +:+ "/target/lolo-" +:+ v +:+ "-jar-with-dependencies.jar" in
  find_lolo_jar file false w p =
    (if isfile w jar_path then Ok jar_path
     else Raise (RuntimeError devel_jar_missing),
     log (IsFile jar_path)
       (log (XmlParse (devel_pom file)) (log (IsDir (devel_marker file)) p))).
Proof.
  intros Hdir Hpom Hfind Htext jar_path.
  unfold devel_marker, devel_pom, version_tag in *.
  unfold find_lolo_jar, _is_development_installation. unfold_monad. cbn [negb].
  rewrite Hdir, Hpom, Hfind. unfold_monad. cbv beta iota.
  rewrite Htext, devel_jar_path. fold jar_path.
  now destruct (isfile w jar_path).
Qed.

Lemma devel_jar_or_error_witness :
  isdir Sample.checkout_unbuilt (devel_marker Sample.module_file) = true
  /\ isfile Sample.checkout_unbuilt Sample.local_jar = true
  /\ find_lolo_jar Sample.module_file false Sample.checkout_unbuilt Sample.fresh =
       (Raise (RuntimeError devel_jar_missing),
        log (IsFile Sample.devel_jar)
          (log (XmlParse Sample.pom_path) (log (IsDir Sample.marker) Sample.fresh))).
Proof.
  split; [ reflexivity | split; [ reflexivity | ] ].
  apply (devel_jar_or_error Sample.module_file Sample.checkout_unbuilt Sample.fresh
           Sample.pom (Elem Sample.version_element_tag (Some "1.0.3") []) "1.0.3");
    reflexivity.
Defined.

(** C6, as stated, fails: an unusable pom.xml does not produce one
    identifiable kind of error.  A missing file, a malformed file and a file
    without version element make [find_lolo_jar] fail with three different
    classes, each raised by the library call that tripped, none of them
    specific to the descriptor. *)
Lemma descriptor_errors_are_not_one_kind :
  fst (find_lolo_jar Sample.module_file false Sample.checkout_no_pom Sample.fresh)
    = Raise (FileNotFoundError Sample.pom_path)
  /\ fst (find_lolo_jar Sample.module_file false Sample.checkout_bad_pom Sample.fresh)
    = Raise ParseError
  /\ fst (find_lolo_jar Sample.module_file false Sample.checkout_no_version Sample.fresh)
    = Raise (AttributeError "'NoneType' object has no attribute 'text'")
  /\ class_of (FileNotFoundError Sample.pom_path) <> class_of ParseError
  /\ class_of ParseError
     <> class_of (AttributeError "'NoneType' object has no attribute 'text'")
  /\ class_of (FileNotFoundError Sample.pom_path)
     <> class_of (AttributeError "'NoneType' object has no attribute 'text'").
Proof. repeat split; (reflexivity || discriminate). Qed.

(** C6, amended.  In a checkout, when the pom.xml is missing, malformed or
    lacks the version element, [find_lolo_jar(False)] fails with the
    exception of the library call that tripped ([FileNotFoundError],
    [ParseError], [AttributeError] respectively), which is never the
    jar-not-found [RuntimeError]; it stops there, without probing any jar. *)
Theorem descriptor_failure_propagates (file : string) (w : World) (p : process)
    (e : exn) :
  isdir w (devel_marker file) = true ->
  descriptor_failure (devel_pom file) (xml_parse w (devel_pom file)) = Some e ->
  find_lolo_jar file false w p =
    (Raise e, log (XmlParse (devel_pom file)) (log (IsDir (devel_marker file)) p))
  /\ class_of e <> CRuntimeError.
Proof.
  unfold devel_marker, devel_pom, descriptor_failure, version_tag.
  intros Hdir Hfail.
  unfold find_lolo_jar, _is_development_installation. unfold_monad. cbn [negb].
  rewrite Hdir.
  destruct (xml_parse w _) as [| | e0 | root].
  - injection Hfail as <-. now split.
  - injection Hfail as <-. now split.
  - discriminate.
  - destruct (Element_find root _); [ discriminate | ].
    injection Hfail as <-. now split.
Qed.

Lemma descriptor_failure_propagates_witness :
  isdir Sample.checkout_no_version (devel_marker Sample.module_file) = true
  /\ find_lolo_jar Sample.module_file false Sample.checkout_no_version Sample.fresh =
       (Raise (AttributeError "'NoneType' object has no attribute 'text'"),
        log (XmlParse (devel_pom Sample.module_file))
          (log (IsDir (devel_marker Sample.module_file)) Sample.fresh))
  /\ class_of (AttributeError "'NoneType' object has no attribute 'text'")
     <> CRuntimeError.
Proof.
  split; [ reflexivity | ].
  apply (descriptor_failure_propagates Sample.module_file Sample.checkout_no_version
           Sample.fresh); reflexivity.
Defined.

(** ** The launch sequence *)

(** Kinds of system call exclude one another. *)
Lemma variable_read_not_spawn (key : string) (ev : event) :
  reads_variable key ev = true -> is_spawn ev = false.
Proof. now destruct ev. Qed.

Lemma file_probe_not_spawn (ev : event) :
  is_file_probe ev = true -> is_spawn ev = false.
Proof. now destruct ev. Qed.

Lemma spawn_free_launch_free (ev : event) :
  is_spawn ev = false -> is_launch ev = false.
Proof. now destruct ev. Qed.

(** A log made of one kind of call holds no call of a kind that excludes it. *)
Lemma none_of_other_kind (kind other : event -> bool) (evs : list event) :
  (forall ev, kind ev = true -> other ev = false) ->
  forallb kind evs = true -> existsb other evs = false.
Proof.
  intros Hexcl. induction evs as [| ev evs IH]; [ reflexivity | ].
  cbn [forallb existsb]. intros [Hev Hevs]%andb_true_iff.
  now rewrite (Hexcl ev Hev), IH.
Qed.

(** C7.  When [get_java_gateway] has to launch (nothing stored, or [reuse]
    false), the jar is located first, right after the flags are read: if
    that raises, the same exception leaves [get_java_gateway] at that very
    point, before anything is run.  Only with a jar in hand is
    [_java_is_installed] called, with [ignore_env] false; if it answers
    false, [get_java_gateway] raises the "Cannot find Java installation"
    [ValueError] there and then, and no gateway has been launched. *)
Theorem launch_sequence_checks (file : string) (reuse skip : bool) (w : World)
    (p : process) :
  _lolopy_gateway p = None \/ reuse = false ->
  (forall e p2,
      find_lolo_jar file skip w (after_java_options w p) = (Raise e, p2) ->
      get_java_gateway file reuse skip w p = (Raise e, p2)
      /\ exists evs,
          only_logged p p2 evs /\ existsb is_spawn evs = false)
  /\ (forall lolo_path p2 p3,
      find_lolo_jar file skip w (after_java_options w p) = (Ok lolo_path, p2) ->
      _java_is_installed false w p2 = (Ok false, p3) ->
      get_java_gateway file reuse skip w p = (Raise (ValueError java_not_found), p3)
      /\ exists evs,
          only_logged p p3 evs /\ existsb is_launch evs = false).
Proof.
  intros Hmust.
  destruct (after_java_options_logged w p) as (evs0 & Hlog0 & Hevs0).
  split.
  - intros e p2 Hfind.
    rewrite get_java_gateway_launching, Hfind by assumption.
    split; [ reflexivity | ].
    destruct (find_lolo_jar_logged _ _ _ _ _ _ Hfind) as (evs1 & Hlog1 & Hevs1).
    exists (evs0 ++ evs1)%list.
    split; [ eapply only_logged_trans; eassumption | ].
    rewrite existsb_app.
    rewrite (none_of_other_kind _ is_spawn _ (variable_read_not_spawn _) Hevs0).
    now rewrite (none_of_other_kind _ is_spawn _ file_probe_not_spawn Hevs1).
  - intros lolo_path p2 p3 Hfind Hjava.
    rewrite get_java_gateway_launching, Hfind, Hjava by assumption.
    split; [ reflexivity | ].
    destruct (find_lolo_jar_logged _ _ _ _ _ _ Hfind) as (evs1 & Hlog1 & Hevs1).
    destruct (java_is_installed_logged _ _ _ _ _ Hjava) as (evs2 & Hlog2 & Hevs2).
    exists ((evs0 ++ evs1) ++ evs2)%list.
    split; [ repeat (eapply only_logged_trans; try eassumption) | ].
    rewrite !existsb_app, Hevs2.
    rewrite (none_of_other_kind _ is_launch _
               (fun ev H => spawn_free_launch_free ev (variable_read_not_spawn _ ev H))
               Hevs0).
    now rewrite (none_of_other_kind _ is_launch _
                   (fun ev H => spawn_free_launch_free ev (file_probe_not_spawn ev H))
                   Hevs1).
Qed.

Lemma launch_sequence_checks_witness :
  (_lolopy_gateway Sample.fresh = None \/ true = false)
  /\ get_java_gateway Sample.module_file true false Sample.bare Sample.fresh =
       (Raise (RuntimeError local_jar_missing),
        log (IsFile Sample.local_jar)
          (log (IsDir Sample.marker)
             (log (EnvContains "LOLOPY_JVM_MEMORY") Sample.fresh)))
  /\ get_java_gateway Sample.module_file true false
       Sample.packaged_other_java Sample.fresh =
       (Raise (ValueError java_not_found),
        log (Run ["java"; "-version"])
          (log (IsFile "./bin/java")
             (log (EnvGet "JAVA_HOME")
                (log (IsFile Sample.local_jar)
                   (log (IsDir Sample.marker)
                      (log (EnvContains "LOLOPY_JVM_MEMORY") Sample.fresh)))))).
Proof.
  split; [ now left | split ].
  - apply (proj1 (launch_sequence_checks Sample.module_file true false
                    Sample.bare Sample.fresh (or_introl eq_refl))).
    reflexivity.
  - apply (proj2 (launch_sequence_checks Sample.module_file true false
                    Sample.packaged_other_java Sample.fresh (or_introl eq_refl))
             Sample.local_jar
             (log (IsFile Sample.local_jar)
                (log (IsDir Sample.marker)
                   (log (EnvContains "LOLOPY_JVM_MEMORY") Sample.fresh))));
      reflexivity.
Defined.

(** ** Independence from environment variables *)

(** C8, as stated, fails.  [subprocess.run] hands the whole environment to
    the child, so a [java] that is a launcher honouring JAVA_HOME answers
    differently in two environments that differ only in that variable, and
    [_java_is_installed(ignore_env=True)] with it. *)
Lemma java_launcher_honours_java_home :
  same_but_variable "JAVA_HOME" Sample.launcher_no_home Sample.launcher_with_home
  /\ fst (_java_is_installed true Sample.launcher_no_home Sample.fresh) = Ok false
  /\ fst (_java_is_installed true Sample.launcher_with_home Sample.fresh) = Ok true.
Proof. repeat split; reflexivity. Qed.

(** C8, amended.  With [ignore_env] set, [_java_is_installed] itself reads
    no environment variable: its one system call is running
    [java -version], and its answer is read off the outcome of that run.  So
    in two worlds that differ only in JAVA_HOME it behaves the same (same
    answer or exception, same system calls) whenever the [java -version]
    run, in a child that inherits the environment, comes out the same in
    both. *)
Theorem ignore_env_follows_probe_only (w1 w2 : World) (p : process) :
  same_but_variable "JAVA_HOME" w1 w2 ->
  run w1 (environ w1) ["java"; "-version"] = run w2 (environ w2) ["java"; "-version"] ->
  _java_is_installed true w1 p = _java_is_installed true w2 p
  /\ snd (_java_is_installed true w1 p) = log (Run ["java"; "-version"]) p
  /\ fst (_java_is_installed true w1 p) =
       match run w1 (environ w1) ["java"; "-version"] with
       | ExecutableNotFound => Raise (FileNotFoundError "java")
       | RunRaised e => Raise e
       | Completed proc =>
           Ok (Py.bytes_startswith (stdout proc) (Py.b "java version")
               || Py.bytes_startswith (stderr proc) (Py.b "java version"))
       end.
Proof.
  intros _ Hrun.
  rewrite !java_is_installed_ignore_env, Hrun. auto.
Qed.

(** With a JDK under JAVA_HOME and an unrecognised java on the PATH, setting
    JAVA_HOME changes the answer of the plain check and leaves that of the
    [ignore_env] check alone. *)
Lemma ignore_env_follows_probe_only_witness :
  let unset := Sample.jdk_beside_other_java ∅ in
  let set := Sample.jdk_beside_other_java {[ "JAVA_HOME" := "/usr/lib/jvm/default" ]} in
  same_but_variable "JAVA_HOME" unset set
  /\ fst (_java_is_installed false unset Sample.fresh) = Ok false
  /\ fst (_java_is_installed false set Sample.fresh) = Ok true
  /\ _java_is_installed true unset Sample.fresh
     = _java_is_installed true set Sample.fresh.
Proof.
  intros unset set.
  assert (same_but_variable "JAVA_HOME" unset set)
    as Hsame by (repeat split; reflexivity).
  split; [ exact Hsame | split; [ reflexivity | split; [ reflexivity | ] ] ].
  exact (proj1 (ignore_env_follows_probe_only unset set Sample.fresh Hsame eq_refl)).
Defined.

(** ** Failure and the stored gateway *)

(** C9.  A call of [get_java_gateway] that raises, at whatever step (locating
    the jar, reading the pom.xml, checking for Java, or the launch itself),
    leaves [_lolopy_gateway] as it was; a gateway stored before is still the
    one a later re-using call returns, in any world. *)
Theorem failed_call_keeps_gateway (file : string) (reuse skip : bool) (w : World)
    (p p' : process) (e : exn) :
  get_java_gateway file reuse skip w p = (Raise e, p') ->
  _lolopy_gateway p' = _lolopy_gateway p
  /\ forall h w' skip',
      _lolopy_gateway p = Some h ->
      fst (get_java_gateway file true skip' w' p') = Ok (Some h).
Proof.
  intros Hfail.
  assert (_lolopy_gateway p' = _lolopy_gateway p) as Hkept.
  { assert (_lolopy_gateway p = None \/ reuse = false) as Hmust.
    { destruct (_lolopy_gateway p) as [h |] eqn:Hp; [ | now left ].
      destruct reuse; [ | now right ].
      now rewrite (get_java_gateway_cached _ _ _ _ h Hp) in Hfail. }
    rewrite get_java_gateway_launching in Hfail by assumption.
    rewrite <- (after_java_options_gateway w p).
    destruct (find_lolo_jar _ _ _ _) as [[path | e1] p2] eqn:Hfind.
    - destruct (find_lolo_jar_logged _ _ _ _ _ _ Hfind) as (evs1 & Hlog1 & _).
      rewrite <- (only_logged_gateway _ _ _ Hlog1).
      destruct (_java_is_installed _ _ _) as [[[|] | e2] p3] eqn:Hjava;
        destruct (java_is_installed_logged _ _ _ _ _ Hjava) as (evs2 & Hlog2 & _);
        rewrite <- (only_logged_gateway _ _ _ Hlog2).
      + unfold after_launch in Hfail.
        destruct (launch_failure _ _ _); [ | discriminate ].
        now injection Hfail as _ <-.
      + now injection Hfail as _ <-.
      + now injection Hfail as _ <-.
    - destruct (find_lolo_jar_logged _ _ _ _ _ _ Hfind) as (evs1 & Hlog1 & _).
      injection Hfail as _ <-. exact (only_logged_gateway _ _ _ Hlog1). }
  split; [ exact Hkept | ].
  intros h w' skip' Hh. rewrite <- Hkept in Hh.
  now rewrite (get_java_gateway_cached _ _ _ _ h Hh).
Qed.

Lemma failed_call_keeps_gateway_witness :
  get_java_gateway Sample.module_file false false Sample.bare Sample.running =
    (Raise (RuntimeError local_jar_missing),
     log (IsFile Sample.local_jar)
       (log (IsDir Sample.marker)
          (log (EnvContains "LOLOPY_JVM_MEMORY") Sample.running)))
  /\ fst (get_java_gateway Sample.module_file true false Sample.packaged
            (log (IsFile Sample.local_jar)
               (log (IsDir Sample.marker)
                  (log (EnvContains "LOLOPY_JVM_MEMORY") Sample.running))))
     = Ok (Some Sample.stored).
Proof.
  split; [ reflexivity | ].
  apply (proj2 (failed_call_keeps_gateway Sample.module_file false false Sample.bare
                  Sample.running _ (RuntimeError local_jar_missing) eq_refl)).
  reflexivity.
Defined.

(** C10.  On the cached path the heap-size variable has no say: in two
    worlds that differ only in [LOLOPY_JVM_MEMORY], a re-using call made
    while a gateway is stored returns that gateway and keeps it stored.  The
    variable is looked up all the same, before the stored gateway is
    consulted: the lookup is the first thing each call logs. *)
Theorem reuse_ignores_memory_variable (file : string) (skip : bool)
    (w1 w2 : World) (p : process) (h : JavaGateway) :
  same_but_variable "LOLOPY_JVM_MEMORY" w1 w2 ->
  _lolopy_gateway p = Some h ->
  fst (get_java_gateway file true skip w1 p) = Ok (Some h)
  /\ fst (get_java_gateway file true skip w2 p) = Ok (Some h)
  /\ _lolopy_gateway (snd (get_java_gateway file true skip w1 p)) = Some h
  /\ _lolopy_gateway (snd (get_java_gateway file true skip w2 p)) = Some h
  /\ (exists evs, syscalls (snd (get_java_gateway file true skip w1 p))
                  = (syscalls p ++ EnvContains "LOLOPY_JVM_MEMORY" :: evs)%list)
  /\ (exists evs, syscalls (snd (get_java_gateway file true skip w2 p))
                  = (syscalls p ++ EnvContains "LOLOPY_JVM_MEMORY" :: evs)%list).
Proof.
  intros _ Hh.
  rewrite !(get_java_gateway_cached _ _ _ _ h Hh). cbn [fst snd].
  rewrite !after_java_options_gateway.
  repeat split; try assumption; unfold after_java_options;
    destruct (environ _ !! _); cbn; rewrite <- ?app_assoc; eauto.
Qed.

Lemma reuse_ignores_memory_variable_witness :
  same_but_variable "LOLOPY_JVM_MEMORY" Sample.packaged Sample.packaged_2g
  /\ fst (get_java_gateway Sample.module_file true false Sample.packaged
            Sample.running) = Ok (Some Sample.stored)
  /\ fst (get_java_gateway Sample.module_file true false Sample.packaged_2g
            Sample.running) = Ok (Some Sample.stored).
Proof.
  assert (same_but_variable "LOLOPY_JVM_MEMORY" Sample.packaged Sample.packaged_2g)
    as Hsame by (repeat split; reflexivity).
  split; [ exact Hsame | ].
  destruct (reuse_ignores_memory_variable Sample.module_file false Sample.packaged
              Sample.packaged_2g Sample.running Sample.stored Hsame eq_refl)
    as (H1 & H2 & _).
  split; assumption.
Defined.

(** ** More on locating the jar *)

(** X1.  When [skip_devel_version] is set, or the marker directory of a
    checkout is absent, [find_lolo_jar] decides on the packaged jar alone:
    it returns its path if the file exists and raises the "Lolo not found"
    [RuntimeError] otherwise.  The pom.xml is not parsed and no jar under
    [target] is probed; with [skip_devel_version] set not even the marker
    directory is looked at.  The message differs from the one of a checkout
    that was not built. *)
Theorem packaged_mode_probes_local_jar_only (file : string) (skip : bool)
    (w : World) (p : process) :
  skip = true \/ isdir w (devel_marker file) = false ->
  find_lolo_jar file skip w p =
    (if isfile w (local_jar_path file) then Ok (local_jar_path file)
     else Raise (RuntimeError local_jar_missing),
     log (IsFile (local_jar_path file))
       (if skip then p else log (IsDir (devel_marker file)) p))
  /\ local_jar_missing <> devel_jar_missing.
Proof.
  unfold devel_marker, local_jar_path. intros Hmode.
  split; [ | discriminate ].
  unfold find_lolo_jar, _is_development_installation. unfold_monad.
  destruct skip; cbn [negb].
  - now destruct (isfile w _).
  - destruct Hmode as [? | ->]; [ discriminate | ].
    now destruct (isfile w _).
Qed.

Lemma packaged_mode_probes_local_jar_only_witness :
  isdir Sample.checkout (devel_marker Sample.module_file) = true
  /\ find_lolo_jar Sample.module_file true Sample.checkout Sample.fresh =
       (Ok Sample.local_jar, log (IsFile Sample.local_jar) Sample.fresh).
Proof.
  split; [ reflexivity | ].
  exact (proj1 (packaged_mode_probes_local_jar_only Sample.module_file true
                  Sample.checkout Sample.fresh (or_introl eq_refl))).
Defined.

(** X2.  In a checkout whose pom.xml has a version element without text,
    reading [.text] gives [None] and no error: [find_lolo_jar] formats it
    into the jar name and looks for
    [<root>/target/lolo-None-jar-with-dependencies.jar], failing with the
    "Current version of lolo jar not found" [RuntimeError] if that file is
    absent. *)
Theorem blank_version_names_none_jar (file : string) (w : World) (p : process)
    (root version : Element) :
  isdir w (devel_marker file) = true ->
  xml_parse w (devel_pom file) = Parsed root ->
  Element_find root version_tag = Some version ->
  Element_text version = None ->
  let jar_path := _lolo_root file +:+ "/target/lolo-None-jar-with-dependencies.jar" in
  fst (find_lolo_jar file false w p) =
    if isfile w jar_path then Ok jar_path
    else Raise (RuntimeError devel_jar_missing).
Proof.
  intros Hdir Hpom Hfind Htext jar_path.
  unfold devel_marker, devel_pom, version_tag in *.
  unfold find_lolo_jar, _is_development_installation. unfold_monad. cbn [negb].
  rewrite Hdir, Hpom, Hfind. unfold_monad. cbv beta iota. rewrite Htext.
  change (devel_jar_name None) with (devel_jar_name (Some "None")).
  rewrite devel_jar_path.
  change (_lolo_root file +:+ "/target/lolo-" +:+ "None"
          +:+ "-jar-with-dependencies.jar") with jar_path.
  now destruct (isfile w jar_path).
Qed.

Lemma blank_version_names_none_jar_witness :
  isdir Sample.checkout_blank_version (devel_marker Sample.module_file) = true
  /\ fst (find_lolo_jar Sample.module_file false Sample.checkout_blank_version
            Sample.fresh)
     = Raise (RuntimeError devel_jar_missing).
Proof.
  split; [ reflexivity | ].
  apply (blank_version_names_none_jar Sample.module_file
           Sample.checkout_blank_version Sample.fresh Sample.pom_blank_version
           (Elem Sample.version_element_tag None []));
    reflexivity.
Defined.

(** X3.  [find_lolo_jar] only looks: whatever its outcome, the stored
    gateway and the number of launched JVMs are as before, and it made at
    most three system calls, each a directory test, a file test or the
    parsing of the pom.xml; it reads no environment variable and runs
    nothing. *)
Theorem find_lolo_jar_only_probes (file : string) (skip : bool) (w : World)
    (p p' : process) (r : result string) :
  find_lolo_jar file skip w p = (r, p') ->
  _lolopy_gateway p' = _lolopy_gateway p
  /\ launched p' = launched p
  /\ exists evs,
      syscalls p' = (syscalls p ++ evs)%list
      /\ forallb is_file_probe evs = true
      /\ length evs <= 3.
Proof.
  unfold find_lolo_jar, _is_development_installation. unfold_monad.
  destruct skip; cbn [negb].
  - destruct (isfile w _); cbn [negb]; intros [= <- <-];
      (repeat split; eexists [_]; repeat split; cbn; lia).
  - destruct (isdir w _).
    + destruct (xml_parse w _) as [| | e0 | root].
      * intros [= <- <-]. repeat split. eexists [_; _].
        cbn. rewrite <- app_assoc. repeat split; lia.
      * intros [= <- <-]. repeat split. eexists [_; _].
        cbn. rewrite <- app_assoc. repeat split; lia.
      * intros [= <- <-]. repeat split. eexists [_; _].
        cbn. rewrite <- app_assoc. repeat split; lia.
      * destruct (Element_find root _) as [version |]; unfold_monad; cbv beta iota.
        -- destruct (isfile w _); cbn [negb]; intros [= <- <-];
             (repeat split; eexists [_; _; _];
              cbn; rewrite <- !app_assoc; repeat split; lia).
        -- intros [= <- <-]. repeat split. eexists [_; _].
           cbn. rewrite <- app_assoc. repeat split; lia.
    + destruct (isfile w _); cbn [negb]; intros [= <- <-];
        (repeat split; eexists [_; _];
         cbn; rewrite <- !app_assoc; repeat split; lia).
Qed.

Lemma find_lolo_jar_only_probes_witness :
  _lolopy_gateway (snd (find_lolo_jar Sample.module_file false Sample.checkout
                          Sample.running))
    = _lolopy_gateway Sample.running
  /\ launched (snd (find_lolo_jar Sample.module_file false Sample.checkout
                      Sample.running))
    = launched Sample.running.
Proof.
  destruct (find_lolo_jar_only_probes Sample.module_file false Sample.checkout
              Sample.running _ _ eq_refl) as (Hgateway & Hlaunched & _).
  split; assumption.
Defined.

(** X4.  [find_lolo_jar] is decided by the file system: in two worlds with
    the same directories, files and pom.xml contents it gives the same
    result and makes the same system calls, whatever the environment
    variables and whatever Java is installed. *)
Theorem find_lolo_jar_depends_on_files_only (file : string) (skip : bool)
    (w1 w2 : World) (p : process) :
  isdir w1 = isdir w2 ->
  isfile w1 = isfile w2 ->
  xml_parse w1 = xml_parse w2 ->
  find_lolo_jar file skip w1 p = find_lolo_jar file skip w2 p.
Proof.
  intros Hdir Hfile Hparse.
  unfold find_lolo_jar, _is_development_installation. unfold_monad.
  destruct skip; cbn [negb]; cbv beta.
  - rewrite Hfile. now destruct (isfile w2 _).
  - rewrite Hdir.
    destruct (isdir w2 _); [ | rewrite Hfile; now destruct (isfile w2 _) ].
    rewrite Hparse.
    destruct (xml_parse w2 _) as [| | e0 | root]; try reflexivity.
    destruct (Element_find root _); unfold_monad; cbv beta iota; [ | reflexivity ].
    rewrite Hfile. now destruct (isfile w2 _).
Qed.

Lemma find_lolo_jar_depends_on_files_only_witness :
  environ Sample.packaged <> environ Sample.packaged_2g
  /\ run Sample.packaged ∅ [] <> run Sample.packaged_no_java ∅ []
  /\ find_lolo_jar Sample.module_file false Sample.packaged Sample.fresh
     = find_lolo_jar Sample.module_file false Sample.packaged_2g Sample.fresh
  /\ find_lolo_jar Sample.module_file false Sample.packaged Sample.fresh
     = find_lolo_jar Sample.module_file false Sample.packaged_no_java Sample.fresh.
Proof.
  split; [ intros H; apply (f_equal (fun m => m !! "LOLOPY_JVM_MEMORY")) in H;
           discriminate H | ].
  split; [ discriminate | ].
  split.
  - apply (find_lolo_jar_depends_on_files_only Sample.module_file false
             Sample.packaged Sample.packaged_2g Sample.fresh); reflexivity.
  - apply (find_lolo_jar_depends_on_files_only Sample.module_file false
             Sample.packaged Sample.packaged_no_java Sample.fresh); reflexivity.
Defined.

(** X5.  [find_lolo_jar] raises nothing of its own but the two
    jar-not-found [RuntimeError]s.  Any other exception leaving it is either
    the one [ElementTree.parse] raised on the pom.xml (a
    [FileNotFoundError], a [ParseError], a [PermissionError], ...), passed
    on as it is, or the [AttributeError] of a missing version element.  With
    [skip_devel_version] set only the "Lolo not found" [RuntimeError] is
    possible. *)
Theorem find_lolo_jar_errors (file : string) (skip : bool) (w : World)
    (p p' : process) (e : exn) :
  find_lolo_jar file skip w p = (Raise e, p') ->
  is_find_lolo_jar_error file w e
  /\ (skip = true -> e = RuntimeError local_jar_missing).
Proof.
  unfold is_find_lolo_jar_error, parse_exception, devel_pom.
  unfold find_lolo_jar, _is_development_installation. unfold_monad.
  destruct skip; cbn [negb].
  - destruct (isfile w _); cbn [negb]; [ discriminate | ].
    intros [= <- _]. auto.
  - intros Hfail. split; [ | discriminate ]. revert Hfail.
    destruct (isdir w _).
    + destruct (xml_parse w _) as [| | e0 | root].
      * intros [= <- _]. auto.
      * intros [= <- _]. auto.
      * intros [= <- _]. auto.
      * destruct (Element_find root _) as [version |]; unfold_monad; cbv beta iota.
        -- destruct (isfile w _); cbn [negb]; [ discriminate | ].
           intros [= <- _]. auto.
        -- intros [= <- _]. auto.
    + destruct (isfile w _); cbn [negb]; [ discriminate | ].
      intros [= <- _]. auto.
Qed.

Lemma find_lolo_jar_errors_witness :
  find_lolo_jar Sample.module_file false Sample.checkout_unreadable_pom Sample.fresh
    = (Raise (PermissionError Sample.pom_path),
       log (XmlParse Sample.pom_path) (log (IsDir Sample.marker) Sample.fresh))
  /\ is_find_lolo_jar_error Sample.module_file Sample.checkout_unreadable_pom
       (PermissionError Sample.pom_path).
Proof.
  split; [ reflexivity | ].
  exact (proj1 (find_lolo_jar_errors Sample.module_file false
                  Sample.checkout_unreadable_pom Sample.fresh
                  (log (XmlParse Sample.pom_path) (log (IsDir Sample.marker) Sample.fresh))
                  (PermissionError Sample.pom_path) eq_refl)).
Defined.

(** ** More on checking for Java *)

(** X6.  Route 1 settles the check: when environment variables are not
    ignored and a file sits at [<JAVA_HOME>/bin/java] (JAVA_HOME defaulting
    to the current directory), [_java_is_installed] answers true after
    reading JAVA_HOME and testing that one file.  No process is run, so the
    answer is the same with or without a [java] on the PATH. *)
Theorem java_home_binary_suffices (w : World) (p : process) :
  isfile w (java_home_binary w) = true ->
  _java_is_installed false w p =
    (Ok true, log (IsFile (java_home_binary w)) (log (EnvGet "JAVA_HOME") p)).
Proof.
  unfold java_home_binary. intros Hfile.
  unfold _java_is_installed. unfold_monad. cbn [negb].
  now rewrite Hfile.
Qed.

Lemma java_home_binary_suffices_witness :
  run Sample.packaged_jdk_home (environ Sample.packaged_jdk_home)
      ["java"; "-version"] = ExecutableNotFound
  /\ _java_is_installed false Sample.packaged_jdk_home Sample.fresh =
       (Ok true,
        log (IsFile "/usr/lib/jvm/default/bin/java")
          (log (EnvGet "JAVA_HOME") Sample.fresh)).
Proof.
  split; [ reflexivity | ].
  apply (java_home_binary_suffices Sample.packaged_jdk_home Sample.fresh).
  reflexivity.
Defined.

(** X7.  Ignoring the environment can only make the check stricter: whenever
    [_java_is_installed(ignore_env=True)] answers true, so does
    [_java_is_installed(ignore_env=False)] in the same world. *)
Theorem ignore_env_is_stricter (w : World) (p p' : process) :
  fst (_java_is_installed true w p) = Ok true ->
  fst (_java_is_installed false w p') = Ok true.
Proof.
  unfold _java_is_installed. unfold_monad. cbn [negb].
  destruct (isfile w _); [ reflexivity | ].
  now destruct (run w _ _).
Qed.

Lemma ignore_env_is_stricter_witness :
  fst (_java_is_installed true Sample.packaged Sample.fresh) = Ok true
  /\ fst (_java_is_installed false Sample.packaged Sample.running) = Ok true.
Proof.
  split; [ reflexivity | ].
  apply (ignore_env_is_stricter Sample.packaged Sample.fresh Sample.running).
  reflexivity.
Defined.

(** X8.  [_java_is_installed] raises in exactly one situation: Route 1 did
    not answer (the environment is ignored, or no file is at
    [<JAVA_HOME>/bin/java]) and [subprocess.run] raised.  What leaves it is
    then the exception of [subprocess.run], as it is: the
    [FileNotFoundError] for [java] when there is none on the PATH, a
    [PermissionError] or [OSError] when the one found cannot be executed.
    It raises nothing of its own. *)
Theorem java_is_installed_raises_iff (ignore_env : bool) (w : World)
    (p : process) (e : exn) :
  fst (_java_is_installed ignore_env w p) = Raise e
  <-> run_exception ["java"; "-version"] (run w (environ w) ["java"; "-version"])
      = Some e
      /\ (ignore_env = true \/ isfile w (java_home_binary w) = false).
Proof.
  unfold java_home_binary, run_exception, _java_is_installed. unfold_monad.
  destruct ignore_env; cbn [negb hd].
  - destruct (run w _ _); cbn [fst]; split;
      try (intros [= <-]; auto); try discriminate;
      try (now intros ([= <-] & _)); intros ([=] & _).
  - destruct (isfile w _); cbn [fst].
    + split; [ discriminate | ]. intros (_ & [[=] | [=]]).
    + destruct (run w _ _); cbn [fst]; split;
        try (intros [= <-]; auto); try discriminate;
        try (now intros ([= <-] & _)); intros ([=] & _).
Qed.

(** X9.  [_java_is_installed] leaves the process as it found it: the stored
    gateway and the number of launched JVMs are unchanged, it makes at most
    three system calls, and none of them launches a gateway. *)
Theorem java_is_installed_changes_nothing (ignore_env : bool) (w : World)
    (p p' : process) (r : result bool) :
  _java_is_installed ignore_env w p = (r, p') ->
  _lolopy_gateway p' = _lolopy_gateway p
  /\ launched p' = launched p
  /\ exists evs,
      syscalls p' = (syscalls p ++ evs)%list
      /\ existsb is_launch evs = false
      /\ length evs <= 3.
Proof.
  unfold _java_is_installed. unfold_monad.
  destruct ignore_env; cbn [negb].
  - destruct (run w _ _); intros [= <- <-];
      (repeat split; eexists [_]; repeat split; cbn; lia).
  - destruct (isfile w _).
    + intros [= <- <-]. repeat split. eexists [_; _].
      cbn. rewrite <- app_assoc. repeat split; lia.
    + destruct (run w _ _); intros [= <- <-];
        (repeat split; eexists [_; _; _];
         cbn; rewrite <- !app_assoc; repeat split; lia).
Qed.

Lemma java_is_installed_changes_nothing_witness :
  _lolopy_gateway (snd (_java_is_installed false Sample.packaged Sample.running))
    = _lolopy_gateway Sample.running
  /\ launched (snd (_java_is_installed false Sample.packaged Sample.running))
    = launched Sample.running.
Proof.
  destruct (java_is_installed_changes_nothing false Sample.packaged
              Sample.running _ _ eq_refl) as (Hgateway & Hlaunched & _).
  split; assumption.
Defined.

Lemma java_is_installed_raises_iff_witness :
  fst (_java_is_installed false Sample.packaged_broken_java Sample.fresh)
    = Raise (OSError "[Errno 8] Exec format error: 'java'").
Proof.
  apply (proj2 (java_is_installed_raises_iff false Sample.packaged_broken_java
                  Sample.fresh (OSError "[Errno 8] Exec format error: 'java'"))).
  split; [ reflexivity | now right ].
Defined.

(** ** More on the gateway *)

Lemma memory_reads_launch_free (key : string) (evs : list event) :
  forallb (reads_variable key) evs = true -> existsb is_launch evs = false.
Proof.
  apply none_of_other_kind. intros ev Hev.
  apply spawn_free_launch_free, (variable_read_not_spawn key), Hev.
Qed.

Lemma file_probes_launch_free (evs : list event) :
  forallb is_file_probe evs = true -> existsb is_launch evs = false.
Proof.
  apply none_of_other_kind. intros ev Hev.
  apply spawn_free_launch_free, file_probe_not_spawn, Hev.
Qed.

(** The two ways a call of [get_java_gateway] can go: either nothing is
    launched (the stored gateway is handed back, or an exception came before
    the launch), or the jar was found, Java was found, and py4j was asked
    to launch. *)
Lemma get_java_gateway_outcome (file : string) (reuse skip : bool) (w : World)
    (p p' : process) (r : result (option JavaGateway)) :
  get_java_gateway file reuse skip w p = (r, p') ->
  (exists evs,
      only_logged p p' evs /\ existsb is_launch evs = false
      /\ ((exists h, _lolopy_gateway p = Some h /\ reuse = true /\ r = Ok (Some h))
          \/ exists e, r = Raise e))
  \/ (exists evs lolo_path p3,
      only_logged p p3 evs /\ existsb is_launch evs = false
      /\ (_lolopy_gateway p = None \/ reuse = false)
      /\ p' = after_launch w lolo_path p3
      /\ r = match launch_failure w (abspath w lolo_path) (memory_flags w) with
             | Some e => Raise e
             | None => Ok (Some (new_gateway w lolo_path p3))
             end).
Proof.
  intros Hcall.
  destruct (after_java_options_logged w p) as (evs0 & Hlog0 & Hevs0).
  apply memory_reads_launch_free in Hevs0.
  assert ((exists h, _lolopy_gateway p = Some h /\ reuse = true)
          \/ (_lolopy_gateway p = None \/ reuse = false)) as [(h & Hp & ->) | Hmust].
  { destruct (_lolopy_gateway p) as [h |]; [ | now right; left ].
    destruct reuse; [ left; eauto | now right; right ]. }
  - rewrite (get_java_gateway_cached _ _ _ _ h Hp) in Hcall.
    injection Hcall as <- <-. left. exists evs0. eauto 8.
  - rewrite get_java_gateway_launching in Hcall by assumption.
    destruct (find_lolo_jar _ _ _ _) as [[lolo_path | e1] p2] eqn:Hfind;
      destruct (find_lolo_jar_logged _ _ _ _ _ _ Hfind) as (evs1 & Hlog1 & Hevs1);
      apply file_probes_launch_free in Hevs1;
      pose proof (only_logged_trans _ _ _ _ _ Hlog0 Hlog1) as Hlog01.
    + destruct (_java_is_installed _ _ _) as [[[|] | e2] p3] eqn:Hjava;
        destruct (java_is_installed_logged _ _ _ _ _ Hjava) as (evs2 & Hlog2 & Hevs2);
        pose proof (only_logged_trans _ _ _ _ _ Hlog01 Hlog2) as Hlog012;
        injection Hcall as <- <-.
      * right. exists ((evs0 ++ evs1) ++ evs2)%list, lolo_path, p3.
        rewrite !existsb_app, Hevs0, Hevs1, Hevs2. auto.
      * left. exists ((evs0 ++ evs1) ++ evs2)%list.
        rewrite !existsb_app, Hevs0, Hevs1, Hevs2. eauto.
      * left. exists ((evs0 ++ evs1) ++ evs2)%list.
        rewrite !existsb_app, Hevs0, Hevs1, Hevs2. eauto.
    + injection Hcall as <- <-. left. exists (evs0 ++ evs1)%list.
      rewrite existsb_app, Hevs0, Hevs1. eauto.
Qed.

(** X10.  While no gateway is stored, [reuse] makes no difference:
    [get_java_gateway(reuse=True)] and [get_java_gateway(reuse=False)] do
    the same thing. *)
Theorem reuse_irrelevant_without_gateway (file : string) (skip : bool)
    (w : World) (p : process) :
  _lolopy_gateway p = None ->
  get_java_gateway file true skip w p = get_java_gateway file false skip w p.
Proof.
  intros Hnone.
  rewrite (get_java_gateway_launching file true) by now left.
  now rewrite (get_java_gateway_launching file false) by now left.
Qed.

Lemma reuse_irrelevant_without_gateway_witness :
  get_java_gateway Sample.module_file true false Sample.packaged Sample.fresh
  = get_java_gateway Sample.module_file false false Sample.packaged Sample.fresh.
Proof.
  apply (reuse_irrelevant_without_gateway Sample.module_file false Sample.packaged
           Sample.fresh).
  reflexivity.
Defined.

(** X11.  A launch that goes through: when [get_java_gateway] has to launch,
    the jar is found, Java is found and py4j starts the JVM, the call makes
    exactly one more system call after the checks, the launch, with the
    absolute path of the jar found as class path, the flags from
    [LOLOPY_JVM_MEMORY] as Java options, standard output redirected to
    [sys.stdout] and [die_on_exit] set.  The new gateway is returned and
    stored, replacing whatever was stored. *)
Theorem launch_stores_new_gateway (file : string) (reuse skip : bool) (w : World)
    (p p2 p3 : process) (lolo_path : string) :
  _lolopy_gateway p = None \/ reuse = false ->
  find_lolo_jar file skip w (after_java_options w p) = (Ok lolo_path, p2) ->
  _java_is_installed false w p2 = (Ok true, p3) ->
  launch_failure w (abspath w lolo_path) (memory_flags w) = None ->
  let gateway :=
    {| gw_id := launched p;
       gw_classpath := abspath w lolo_path;
       gw_javaopts := memory_flags w |} in
  get_java_gateway file reuse skip w p =
    (Ok (Some gateway),
     {| _lolopy_gateway := Some gateway;
        launched := S (launched p);
        syscalls :=
          syscalls p3
          ++ [Launch (abspath w lolo_path) (memory_flags w) sys_stdout true] |}).
Proof.
  intros Hmust Hfind Hjava Hlaunch gateway.
  rewrite get_java_gateway_launching, Hfind, Hjava, Hlaunch by assumption.
  destruct (find_lolo_jar_logged _ _ _ _ _ _ Hfind) as (evs1 & Hlog1 & _).
  destruct (java_is_installed_logged _ _ _ _ _ Hjava) as (evs2 & Hlog2 & _).
  assert (launched p3 = launched p) as Hcount.
  { rewrite (only_logged_launched _ _ _ Hlog2), (only_logged_launched _ _ _ Hlog1).
    apply after_java_options_launched. }
  unfold after_launch, new_gateway. rewrite Hlaunch, Hcount. reflexivity.
Qed.

Lemma launch_stores_new_gateway_witness :
  get_java_gateway Sample.module_file false false Sample.packaged_2g Sample.running =
    (Ok (Some {| gw_id := 1;
                 gw_classpath := Sample.local_jar;
                 gw_javaopts := ["-Xmx2g"] |}),
     {| _lolopy_gateway :=
          Some {| gw_id := 1;
                  gw_classpath := Sample.local_jar;
                  gw_javaopts := ["-Xmx2g"] |};
        launched := 2;
        syscalls :=
          [ EnvContains "LOLOPY_JVM_MEMORY"; EnvGet "LOLOPY_JVM_MEMORY";
            IsDir Sample.marker; IsFile Sample.local_jar;
            EnvGet "JAVA_HOME"; IsFile "./bin/java"; Run ["java"; "-version"];
            Launch Sample.local_jar ["-Xmx2g"] sys_stdout true ] |}).
Proof.
  apply (launch_stores_new_gateway Sample.module_file false false Sample.packaged_2g
           Sample.running
           (log (IsFile Sample.local_jar)
              (log (IsDir Sample.marker)
                 (after_java_options Sample.packaged_2g Sample.running)))
           (log (Run ["java"; "-version"])
              (log (IsFile "./bin/java")
                 (log (EnvGet "JAVA_HOME")
                    (log (IsFile Sample.local_jar)
                       (log (IsDir Sample.marker)
                          (after_java_options Sample.packaged_2g Sample.running))))))
           Sample.local_jar);
    [ now right | reflexivity | reflexivity | reflexivity ].
Defined.

(** Every call of [get_java_gateway], whatever its outcome, keeps the
    bookkeeping sound: if the gateway stored before the call came from a
    launch counted so far, so does the one stored after it. *)
Theorem get_java_gateway_keeps_stored_launched (file : string)
    (reuse skip : bool) (w : World) (p p' : process)
    (r : result (option JavaGateway)) :
  stored_was_launched p ->
  get_java_gateway file reuse skip w p = (r, p') ->
  stored_was_launched p'.
Proof.
  unfold stored_was_launched. intros Hinv Hcall h.
  destruct (get_java_gateway_outcome _ _ _ _ _ _ _ Hcall)
    as [(evs & Hlog & _) | (evs & lolo_path & p3 & Hlog & _ & _ & -> & _)].
  - rewrite (only_logged_gateway _ _ _ Hlog), (only_logged_launched _ _ _ Hlog).
    apply Hinv.
  - unfold after_launch.
    destruct (launch_failure _ _ _); cbn [_lolopy_gateway launched log].
    + rewrite (only_logged_gateway _ _ _ Hlog), (only_logged_launched _ _ _ Hlog).
      apply Hinv.
    + intros [= <-]. cbn. lia.
Qed.

Lemma get_java_gateway_keeps_stored_launched_witness :
  stored_was_launched Sample.running
  /\ stored_was_launched
       (snd (get_java_gateway Sample.module_file false false Sample.packaged
               Sample.running)).
Proof.
  assert (stored_was_launched Sample.running) as Hinv.
  { intros h [= <-]. cbn. lia. }
  split; [ exact Hinv | ].
  exact (get_java_gateway_keeps_stored_launched Sample.module_file false false
           Sample.packaged Sample.running _ _ Hinv eq_refl).
Defined.

(** X12.  [get_java_gateway(reuse=False)] that succeeds hands out a new
    gateway: it is not the one that was stored (which came from an earlier
    launch), it takes its place in the global, and one more JVM is
    running.  The old gateway is only dropped. *)
Theorem fresh_gateway_replaces_stored (file : string) (skip : bool) (w : World)
    (p p' : process) (old : JavaGateway) (g : option JavaGateway) :
  stored_was_launched p ->
  _lolopy_gateway p = Some old ->
  get_java_gateway file false skip w p = (Ok g, p') ->
  g <> Some old
  /\ _lolopy_gateway p' = g
  /\ launched p' = S (launched p).
Proof.
  intros Hinv Hold Hcall. specialize (Hinv old Hold).
  destruct (get_java_gateway_outcome _ _ _ _ _ _ _ Hcall)
    as [(evs & _ & _ & [(h & _ & [=] & _) | (e & [=])])
       | (evs & lolo_path & p3 & Hlog & _ & _ & -> & Hr)].
  unfold after_launch.
  destruct (launch_failure _ _ _); [ discriminate | ].
  injection Hr as ->. cbn [_lolopy_gateway launched].
  rewrite (only_logged_launched _ _ _ Hlog).
  repeat split. intros [= <-]. cbn in Hinv.
  rewrite (only_logged_launched _ _ _ Hlog) in Hinv. lia.
Qed.

Lemma fresh_gateway_replaces_stored_witness :
  let fresh_gateway :=
    Some {| gw_id := 1; gw_classpath := Sample.local_jar; gw_javaopts := [] |} in
  fresh_gateway <> Some Sample.stored
  /\ _lolopy_gateway
       (snd (get_java_gateway Sample.module_file false false Sample.packaged
               Sample.running)) = fresh_gateway
  /\ launched
       (snd (get_java_gateway Sample.module_file false false Sample.packaged
               Sample.running)) = 2.
Proof.
  assert (stored_was_launched Sample.running) as Hinv.
  { intros h [= <-]. cbn. lia. }
  exact (fresh_gateway_replaces_stored Sample.module_file false Sample.packaged
           Sample.running _ Sample.stored _ Hinv eq_refl eq_refl).
Defined.

(** X13.  One call of [get_java_gateway] asks py4j for at most one launch,
    and the number of running JVMs never goes down: the process is as
    before with more system calls logged, among them at most one launch. *)
Theorem at_most_one_launch_per_call (file : string) (reuse skip : bool)
    (w : World) (p p' : process) (r : result (option JavaGateway)) :
  get_java_gateway file reuse skip w p = (r, p') ->
  exists evs,
    syscalls p' = (syscalls p ++ evs)%list
    /\ length (List.filter is_launch evs) <= 1
    /\ launched p <= launched p' <= S (launched p).
Proof.
  assert (forall evs, existsb is_launch evs = false -> List.filter is_launch evs = [])
    as Hnone.
  { induction evs as [| ev evs IH]; [ reflexivity | ].
    cbn [existsb List.filter]. intros [-> Hevs]%orb_false_iff. now apply IH. }
  intros Hcall.
  destruct (get_java_gateway_outcome _ _ _ _ _ _ _ Hcall)
    as [(evs & Hlog & Hevs & _) | (evs & lolo_path & p3 & Hlog & Hevs & _ & -> & _)].
  - exists evs. rewrite Hlog, (Hnone _ Hevs). cbn. split; [ reflexivity | lia ].
  - exists (evs ++ [Launch (abspath w lolo_path) (memory_flags w) sys_stdout true])%list.
    rewrite List.filter_app, (Hnone _ Hevs), Hlog. unfold after_launch.
    destruct (launch_failure _ _ _); cbn; rewrite <- app_assoc;
      (split; [ reflexivity | lia ]).
Qed.

Lemma at_most_one_launch_per_call_witness :
  launched Sample.running
  <= launched (snd (get_java_gateway Sample.module_file false false
                      Sample.packaged_launch_fails Sample.running))
  <= S (launched Sample.running).
Proof.
  destruct (at_most_one_launch_per_call Sample.module_file false false
              Sample.packaged_launch_fails Sample.running _ _ eq_refl)
    as (evs & _ & _ & Hcount).
  exact Hcount.
Defined.

(** X14.  A call of [get_java_gateway] that returns never returns [None]:
    it returns a gateway, and that gateway is the one the global holds
    afterwards. *)
Theorem returned_gateway_is_stored (file : string) (reuse skip : bool)
    (w : World) (p p' : process) (g : option JavaGateway) :
  get_java_gateway file reuse skip w p = (Ok g, p') ->
  exists h, g = Some h /\ _lolopy_gateway p' = Some h.
Proof.
  intros Hcall.
  destruct (get_java_gateway_outcome _ _ _ _ _ _ _ Hcall)
    as [(evs & Hlog & _ & [(h & Hp & _ & [= ->]) | (e & [=])])
       | (evs & lolo_path & p3 & _ & _ & _ & -> & Hr)].
  - exists h. split; [ reflexivity | ].
    now rewrite (only_logged_gateway _ _ _ Hlog).
  - unfold after_launch.
    destruct (launch_failure _ _ _); [ discriminate | ].
    injection Hr as ->. eauto.
Qed.

Lemma returned_gateway_is_stored_witness :
  exists h,
    fst (get_java_gateway Sample.module_file true false Sample.checkout Sample.fresh)
      = Ok (Some h)
    /\ _lolopy_gateway
         (snd (get_java_gateway Sample.module_file true false Sample.checkout
                 Sample.fresh)) = Some h.
Proof.
  destruct (returned_gateway_is_stored Sample.module_file true false Sample.checkout
              Sample.fresh _ _ eq_refl) as (h & Hg & Hstored).
  exists h. split; [ now rewrite <- Hg | exact Hstored ].
Defined.

(** Two calls in a row: the installation may even vanish in between, the
    re-using call still hands back the gateway of the first. *)
Lemma launch_then_reuse_witness :
  fst (get_java_gateway Sample.module_file true false Sample.bare
         (snd (get_java_gateway Sample.module_file true false Sample.packaged
                 Sample.fresh)))
    = fst (get_java_gateway Sample.module_file true false Sample.packaged
             Sample.fresh)
  /\ launched
       (snd (get_java_gateway Sample.module_file true false Sample.bare
               (snd (get_java_gateway Sample.module_file true false Sample.packaged
                       Sample.fresh))))
     = 1.
Proof.
  exact (launch_then_reuse Sample.module_file true false false Sample.packaged
           Sample.bare Sample.fresh _ _ eq_refl).
Defined.
